(** * Forecast chart: error regions, legend state machine, value display

    A shallow embedding of the data transformations and of the interaction
    state of [src/app/src/App.js] (the components [ForecastChart],
    [ErrorStatsDisplay], [AnalysisChart], [ActiveDataDisplay], [LabeledValue]
    and the helper [toTitleCase]), followed by the properties proved about
    them.

    Conventions of the embedding:
    - a JavaScript number is a binary64 float ([float] of the kernel), with
      [*] and [/] the IEEE operations;
    - a JavaScript string is a [string] (a sequence of bytes; the letter-case
      functions and the character classes cover ASCII);
    - an object that the code enumerates ([Object.keys], [Object.entries]) is
      the list of its entries in enumeration order; an object that is only
      indexed is a [gmap];
    - React state is a record, and the handlers are functions on it. *)

From Stdlib Require Import ZArith QArith Qround Lqa Ascii String Floats DecimalString.
From stdpp Require Import gmap strings list sorting pretty.

Set Warnings "-inexact-float".

(** ** Strings *)

Module JsString.

Definition code (c : ascii) : N := N_of_ascii c.

Definition isDigit (c : ascii) : bool :=
  ((48 <=? code c) && (code c <=? 57))%N.

Definition isUpper (c : ascii) : bool :=
  ((65 <=? code c) && (code c <=? 90))%N.

Definition isLower (c : ascii) : bool :=
  ((97 <=? code c) && (code c <=? 122))%N.

(** The class [\w]. *)
Definition isWord (c : ascii) : bool :=
  isDigit c || isUpper c || isLower c || (code c =? 95)%N.

(** The class [\s], on ASCII. *)
Definition isSpace (c : ascii) : bool :=
  ((code c =? 32) || ((9 <=? code c) && (code c <=? 13)))%N.

Definition upperChar (c : ascii) : ascii :=
  if isLower c then ascii_of_N (code c - 32) else c.

Definition lowerChar (c : ascii) : ascii :=
  if isUpper c then ascii_of_N (code c + 32) else c.

Fixpoint mapChars (f : ascii -> ascii) (s : string) : string :=
  match s with
  | EmptyString => EmptyString
  | String c s' => String (f c) (mapChars f s')
  end.

(** [s.toUpperCase()] and [s.toLowerCase()]. *)
Definition toUpperCase : string -> string := mapChars upperChar.
Definition toLowerCase : string -> string := mapChars lowerChar.

Fixpoint allChars (p : ascii -> bool) (s : string) : bool :=
  match s with
  | EmptyString => true
  | String c s' => p c && allChars p s'
  end.

(** [s.includes(sub)]. *)
Fixpoint includes (s sub : string) : bool :=
  String.prefix sub s ||
  match s with
  | EmptyString => false
  | String _ s' => includes s' sub
  end.

(** [s.split(sep)] for a non-empty separator: [skip] counts the characters
    of a separator still to be passed over, [cur] is the piece being read. *)
Fixpoint splitFrom (sep s : string) (skip : nat) (cur : string) : list string :=
  match s with
  | EmptyString => [cur]
  | String c s' =>
      match skip with
      | S k => splitFrom sep s' k cur
      | O =>
          if String.prefix sep s
          then cur :: splitFrom sep s' (String.length sep - 1) ""
          else splitFrom sep s' 0 (cur +:+ String c "")
      end
  end.

Definition split (s sep : string) : list string := splitFrom sep s 0 "".

(** [s.replace(/_/, ' ')]: the first underscore becomes a space. *)
Fixpoint replaceFirstUnderscore (s : string) : string :=
  match s with
  | EmptyString => EmptyString
  | String c s' =>
      if (code c =? 95)%N then String " " s'
      else String c (replaceFirstUnderscore s')
  end.

End JsString.

(** ** The analysis payload *)

(** An object whose entries the code enumerates, as the list of its entries
    in the order of [Object.keys] and [Object.entries]: the keys that are
    array indices first, in ascending numeric order, then the other keys in
    the order of their insertion. *)
Definition JsObject (V : Type) : Type := list (string * V).

Definition Object_keys {V} (o : JsObject V) : list string := o.*1.

(** [o[k]]; [None] is [undefined]. *)
Fixpoint Object_get {V} (o : JsObject V) (k : string) : option V :=
  match o with
  | [] => None
  | (k', v) :: o' => if decide (k' = k) then Some v else Object_get o' k
  end.

(** A value that throws is [TypeError]. *)
Inductive Result (A : Type) : Type :=
| Ok (a : A)
| TypeError.
Arguments Ok {A} a.
Arguments TypeError {A}.

Definition bindR {A B} (r : Result A) (k : A -> Result B) : Result B :=
  match r with
  | Ok a => k a
  | TypeError => TypeError
  end.

Definition mapR {A B} (f : A -> B) (r : Result A) : Result B :=
  bindR r (fun a => Ok (f a)).

Definition StatsBlock : Type := JsObject (JsObject float).

Record LeadDayAnalysis : Type := {
  fcasts : gmap string float;
  errors : JsObject float;
  stats : StatsBlock
}.

Record Metadata : Type := {
  display_name : string;
  prop_name : string
}.

Record VariableAnalysis : Type := {
  metadata : Metadata;
  obs : gmap string float;
  lead_days : JsObject LeadDayAnalysis;
  cumulative_stats : StatsBlock
}.

(** A lead-day key says how many days ahead a forecast was made: a
    non-empty string of decimal digits. *)
Definition isLeadDayKey (k : string) : bool :=
  negb (bool_decide (k = "")) && JsString.allChars JsString.isDigit k.

(** ** The active day *)

(** The values the active day takes in the code: [false] (the "leave it"
    signal), [null], [undefined], or a lead-day key. *)
Inductive ActiveDay : Type :=
| DayFalse
| DayNull
| DayUndefined
| DayKey (day : string).

Global Instance ActiveDay_eq_dec : EqDecision ActiveDay.
Proof. solve_decision. Defined.

(** JavaScript truthiness: of these, only a non-empty string is truthy. *)
Definition truthy (d : ActiveDay) : bool :=
  match d with
  | DayKey k => negb (bool_decide (k = ""))
  | _ => false
  end.

(** A point reported by the chart on hover: the series it belongs to
    ([childName]), its value ([_y], [None] for [null]) and, on the points of
    an error area, the error ([amount], [None] for [undefined]). *)
Record HoverPoint : Type := {
  childName : string;
  _y : option float;
  amount : option float
}.

(** The state of [AnalysisChart]. *)
Record ChartState : Type := {
  activeFcastDay : ActiveDay;
  activeData : list HoverPoint
}.

Definition initialState : ChartState :=
  {| activeFcastDay := DayNull; activeData := [] |}.

(** [handleChange]: the second argument is [None] when a falsy value is
    passed; an array is truthy, also when empty. *)
Definition handleChange (newActiveDay : ActiveDay)
    (newActiveData : option (list HoverPoint)) (st : ChartState) : ChartState :=
  {| activeFcastDay :=
       if decide (newActiveDay = DayFalse) then activeFcastDay st
       else newActiveDay;
     activeData :=
       match newActiveData with
       | Some data => data
       | None => activeData st
       end |}.

(** ** The legend *)

Definition activeFcasts (analysis : VariableAnalysis) (activeDay : ActiveDay)
    : list ActiveDay :=
  if truthy activeDay then [activeDay]
  else DayKey <$> Object_keys (lead_days analysis).

(** [xs.includes(x)]. *)
Definition Array_includes (xs : list ActiveDay) (x : ActiveDay) : bool :=
  bool_decide (x ∈ xs).

(** The first element of an array, by destructuring. *)
Definition first (xs : list ActiveDay) : ActiveDay :=
  match xs with
  | x :: _ => x
  | [] => DayUndefined
  end.

(** The value [toggleDisplayed] passes to [onChange] as the new active day. *)
Definition newActiveDayOf (analysis : VariableAnalysis) (activeDay : ActiveDay)
    (labelName : string) : ActiveDay :=
  let allFcastDays := DayKey <$> Object_keys (lead_days analysis) in
  let day := first (DayKey <$> JsString.split labelName "-Day") in
  if negb (truthy activeDay) then
    if JsString.includes labelName "Error" then
      first (activeFcasts analysis activeDay)
    else if Array_includes allFcastDays day then day
    else DayFalse
  else if bool_decide (labelName = "Actual")
          || Array_includes (activeFcasts analysis activeDay) day then DayNull
  else if Array_includes allFcastDays day then day
  else DayFalse.

Definition toggleDisplayed (analysis : VariableAnalysis) (activeDay : ActiveDay)
    (onChange : ActiveDay -> option (list HoverPoint) -> ChartState -> ChartState)
    (labelName : string) : ChartState -> ChartState :=
  onChange (newActiveDayOf analysis activeDay labelName) (Some []).

(** A click on the legend entry [labelName], with [ForecastChart] rendered
    from the current state. *)
Definition legendClick (analysis : VariableAnalysis) (labelName : string)
    (st : ChartState) : ChartState :=
  toggleDisplayed analysis (activeFcastDay st) handleChange labelName st.

(** [onActivated] of the Voronoi container. *)
Definition onActivated (points : list HoverPoint) (st : ChartState) : ChartState :=
  handleChange DayFalse (Some points) st.

(** ** The statistics shown *)

(** [stats] of [ErrorStatsDisplay]. *)
Definition ErrorStatsDisplay_stats (analysis : VariableAnalysis)
    (activeDay : ActiveDay) : Result StatsBlock :=
  if negb (truthy activeDay) then Ok (cumulative_stats analysis)
  else
    match activeDay with
    | DayKey k =>
        match Object_get (lead_days analysis) k with
        | Some ld => Ok (stats ld)
        | None => TypeError
        end
    | _ => TypeError
    end.

(** ** Error areas *)

(** A point of an error area: [x] is the time value of the [Date] built from
    the key ([None] for an invalid date, whose time value is NaN), [y] and
    [y0] are the forecast and the observation at that key ([None] for
    [undefined]). *)
Module Errea.
Record datum : Type := {
  x : option Z;
  y : option float;
  y0 : option float;
  amount : float
}.

(** A [VictoryArea] child of the error group. *)
Record area : Type := {
  name : string;
  data : list datum
}.
End Errea.

(** [prev.valueOf() === time.valueOf() - 3600000]; a comparison with NaN is
    false. *)
Definition hourBefore (prev time : option Z) : bool :=
  match prev, time with
  | Some a, Some b => (a =? b - 3600000)%Z
  | _, _ => false
  end.

(** [xs.reduce(f, init)] for a callback that may throw. *)
Fixpoint reduce {A B} (f : B -> A -> Result B) (xs : list A) (init : B) : Result B :=
  match xs with
  | [] => Ok init
  | a :: xs' => bindR (f init a) (reduce f xs')
  end.

Section ErrorAreas.

(** [new Date(timeStr).valueOf()], with [None] for NaN. *)
Variable dateValue : string -> option Z.

Definition erreaDatumOf (analysis : VariableAnalysis) (ld : LeadDayAnalysis)
    (entry : string * float) : Errea.datum :=
  let '(timeStr, amount) := entry in
  {| Errea.x := dateValue timeStr;
     Errea.y := fcasts ld !! timeStr;
     Errea.y0 := obs analysis !! timeStr;
     Errea.amount := amount |}.

(** The callback of the [reduce]: [lastErrea.push] changes the last region
    in place, [erreas.push] appends a region. *)
Definition erreaReducer (analysis : VariableAnalysis) (ld : LeadDayAnalysis)
    (erreas : list (list Errea.datum)) (entry : string * float)
    : Result (list (list Errea.datum)) :=
  let erreaDatum := erreaDatumOf analysis ld entry in
  match last erreas with
  | Some lastErrea =>
      match last lastErrea with
      | Some p =>
          if hourBefore (Errea.x p) (Errea.x erreaDatum)
          then Ok (removelast erreas ++ [lastErrea ++ [erreaDatum]])
          else Ok (erreas ++ [[erreaDatum]])
      | None => TypeError
      end
  | None => Ok (erreas ++ [[erreaDatum]])
  end.

(** The regions built from the errors of one lead day. *)
Definition erreaRegions (analysis : VariableAnalysis) (ld : LeadDayAnalysis)
    : Result (list (list Errea.datum)) :=
  reduce (erreaReducer analysis ld) (errors ld) [].

(** The children of the group [displayedErrea]. *)
Definition displayedErrea (analysis : VariableAnalysis) (activeDay : ActiveDay)
    : Result (list Errea.area) :=
  if truthy activeDay then
    match activeDay with
    | DayKey k =>
        match Object_get (lead_days analysis) k with
        | Some ld =>
            bindR (erreaRegions analysis ld) (fun erreas =>
              Ok (imap (fun i errea =>
                          {| Errea.name := "Error-Area-" +:+ pretty i;
                             Errea.data := errea |}) erreas))
        | None => TypeError
        end
    | _ => TypeError
    end
  else Ok [].

End ErrorAreas.

(** The time values at the keys of an errors object, in enumeration order. *)
Definition timesOf (dateValue : string -> option Z) (errs : JsObject float)
    : list (option Z) :=
  dateValue <$> Object_keys errs.

(** The times of the points of the regions built. *)
Definition regionTimes (r : Result (list (list Errea.datum)))
    : Result (list (list (option Z))) :=
  mapR (map (map Errea.x)) r.

(** The number of positions at which the next time is not exactly one hour
    after the current one. *)
Fixpoint gapPositions (ts : list (option Z)) : nat :=
  match ts with
  | a :: (b :: _) as rest =>
      (if hourBefore a b then 0 else 1) + gapPositions rest
  | _ => 0
  end.

(** Whether each time of a list is exactly one hour after the one before. *)
Fixpoint hourlySteps (ts : list (option Z)) : bool :=
  match ts with
  | a :: (b :: _) as rest => hourBefore a b && hourlySteps rest
  | _ => true
  end.

(** The number of runs of times that advance by the hour. *)
Definition regionCount (ts : list (option Z)) : nat :=
  match ts with
  | [] => 0
  | _ :: _ => S (gapPositions ts)
  end.

(** The valid times of a list, in ascending order. *)
Definition ascendingTimes (ts : list (option Z)) : list (option Z) :=
  Some <$> merge_sort Z.le (omap id ts).

(** ** Dates in examples *)

(** The time value of a date-time string of the form [YYYY-MM-DDTHH:mm:ssZ]
    (UTC), in milliseconds since 1970-01-01T00:00:00Z. Strings of any other
    form are not covered: they are given [None] here. The theorems on error
    areas hold for every [dateValue]; this function serves the examples. *)
Module IsoDate.

Definition digit (c : ascii) : option Z :=
  if JsString.isDigit c then Some (Z.of_N (JsString.code c) - 48)%Z else None.

Fixpoint number (cs : list ascii) (acc : Z) : option Z :=
  match cs with
  | [] => Some acc
  | c :: cs' => d ← digit c; number cs' (10 * acc + d)%Z
  end.

Definition field (s : string) (from len : nat) : option Z :=
  number (list_ascii_of_string (String.substring from len s)) 0%Z.

Definition charAt (s : string) (i : nat) (c : ascii) : bool :=
  bool_decide (String.get i s = Some c).

Definition isLeap (year : Z) : bool :=
  ((year mod 4 =? 0) && (negb (year mod 100 =? 0) || (year mod 400 =? 0)))%Z.

Definition daysInMonth (year month : Z) : Z :=
  if (month =? 2)%Z then (if isLeap year then 29 else 28)%Z
  else if ((month =? 4) || (month =? 6) || (month =? 9) || (month =? 11))%Z
       then 30%Z else 31%Z.

(** Days from 1970-01-01 to the given day of the Gregorian calendar. *)
Definition daysFromCivil (year month day : Z) : Z :=
  let y := (if month <=? 2 then year - 1 else year)%Z in
  let era := (y / 400)%Z in
  let yoe := (y - era * 400)%Z in
  let mp := (if month <=? 2 then month + 9 else month - 3)%Z in
  let doy := ((153 * mp + 2) / 5 + day - 1)%Z in
  let doe := (yoe * 365 + yoe / 4 - yoe / 100 + doy)%Z in
  (era * 146097 + doe - 719468)%Z.

Definition valueOf (s : string) : option Z :=
  if bool_decide (String.length s = 20)
     && charAt s 4 "-" && charAt s 7 "-" && charAt s 10 "T"
     && charAt s 13 ":" && charAt s 16 ":" && charAt s 19 "Z"
  then
    year ← field s 0 4;
    month ← field s 5 2;
    day ← field s 8 2;
    hour ← field s 11 2;
    minute ← field s 14 2;
    second ← field s 17 2;
    if ((1 <=? month) && (month <=? 12) && (1 <=? day)
        && (day <=? daysInMonth year month)
        && (hour <=? 23) && (minute <=? 59) && (second <=? 59))%Z
    then Some ((((daysFromCivil year month day * 24 + hour) * 60 + minute) * 60
                + second) * 1000)%Z
    else None
  else None.

End IsoDate.

(** ** Numbers *)

(** [Math.round] and the conversion of a number to a string, after the
    language specification, on the exact rational value of the number. *)
Module JsNumber.

(** The exact value [m * 2^e] of a positive finite number. *)
Definition exact (m : positive) (e : Z) : Q := (inject_Z (Zpos m) * (2 # 1) ^ e)%Q.

Definition ofZ (n : Z) : float :=
  let f := PrimFloat.of_uint63 (Uint63.of_Z (Z.abs n)) in
  if (n <? 0)%Z then (- f)%float else f.

(** The integer nearest to a rational, a tie going towards +Infinity. *)
Definition nearestInteger (q : Q) : Z := Qfloor (q + (1 # 2))%Q.

(** [Math.round]: the nearest integer, a tie going towards +Infinity; an
    integral number, an infinity and NaN are returned as they are, and the
    sign of a zero result is that of the argument. *)
Definition Math_round (v : float) : float :=
  match Prim2SF v with
  | S754_finite sign m e =>
      if (0 <=? e)%Z then v
      else
        let q := if sign then (- exact m e)%Q else exact m e in
        let n := nearestInteger q in
        if (n =? 0)%Z then (if sign then neg_zero else zero) else ofZ n
  | _ => v
  end.

(** The decimal digits of a natural number. *)
Definition digitsOf (n : Z) : string := NilZero.string_of_uint (N.to_uint (Z.to_N n)).

Fixpoint zeros (n : nat) : string :=
  match n with O => "" | S k => String "0" (zeros k) end.

(** The least exponent from [n] on, within [fuel] steps, whose power of ten
    is above [q]. *)
Fixpoint decimalExponent (fuel : nat) (q : Q) (n : Z) : Z :=
  match fuel with
  | O => n
  | S k => if Qle_bool ((10 # 1) ^ n) q then decimalExponent k q (n + 1) else n
  end.

(** Whether the real [v] rounds to the number [m * 2^e] (to nearest, ties to
    even). *)
Definition roundsTo (m : positive) (e : Z) (v : Q) : bool :=
  let below :=
    if (m =? 4503599627370496)%positive && (-1074 <? e)%Z
    then ((2 # 1) ^ (e - 2))%Q else ((2 # 1) ^ (e - 1))%Q in
  let lo := (exact m e - below)%Q in
  let hi := (exact m e + (2 # 1) ^ (e - 1))%Q in
  if Z.even (Zpos m) then Qle_bool lo v && Qle_bool v hi
  else negb (Qle_bool v lo) && negb (Qle_bool hi v).

(** The candidates with [k] digits: the multiples of [10^(n-k)] next to the
    value, the closer one first. *)
Definition candidates (m : positive) (e : Z) (n : Z) (k : Z) : list Z :=
  let scaled := (exact m e / (10 # 1) ^ (n - k))%Q in
  let lo := Qfloor scaled in
  let closerLo := Qle_bool (scaled - inject_Z lo) (inject_Z (lo + 1) - scaled) in
  filter (fun s => roundsTo m e (inject_Z s * (10 # 1) ^ (n - k))%Q)
         (if closerLo then [lo; (lo + 1)%Z] else [(lo + 1)%Z; lo]).

(** The shortest digit string [s], with its length [k] and the exponent [n],
    such that [s * 10^(n-k)] rounds to the number. *)
Fixpoint shortest (fuel : nat) (m : positive) (e : Z) (n : Z) (k : Z) : Z * Z * Z :=
  match fuel with
  | O => (Qfloor (exact m e / (10 # 1) ^ (n - k)), k, n)
  | S fuel' =>
      match candidates m e n k with
      | s :: _ =>
          if (s =? 10 ^ k)%Z then (1%Z, 1%Z, (n + 1)%Z) else (s, k, n)
      | [] => shortest fuel' m e n (k + 1)
      end
  end.

(** [Number::toString] in radix 10 for a positive finite number. *)
Definition positiveToString (m : positive) (e : Z) : string :=
  let n0 := decimalExponent 700 (exact m e) (-330) in
  let '(s, k, n) := shortest 17 m e n0 1 in
  let digits := digitsOf s in
  if ((-5 <=? n) && (n <=? 21))%Z then
    if (k <=? n)%Z then digits +:+ zeros (Z.to_nat (n - k))
    else if (0 <? n)%Z then
      String.substring 0 (Z.to_nat n) digits +:+ "." +:+
      String.substring (Z.to_nat n) (Z.to_nat (k - n)) digits
    else "0." +:+ zeros (Z.to_nat (- n)) +:+ digits
  else
    let ex := (n - 1)%Z in
    let mant :=
      if (k =? 1)%Z then digits
      else String.substring 0 1 digits +:+ "." +:+
           String.substring 1 (Z.to_nat (k - 1)) digits in
    mant +:+ "e" +:+ (if (ex <? 0)%Z then "-" else "+") +:+ digitsOf (Z.abs ex).

(** The string of a number, as a template literal prints it. *)
Definition toString (v : float) : string :=
  match Prim2SF v with
  | S754_nan => "NaN"
  | S754_zero _ => "0"
  | S754_infinity sign => if sign then "-Infinity" else "Infinity"
  | S754_finite sign m e =>
      (if sign then "-" else "") +:+ positiveToString m e
  end.

End JsNumber.

(** ** Display of values *)

Module TitleCase.
Import JsString.

(** The characters the two patterns accept before a word: an opening
    parenthesis, a double quote, white space, a hyphen, a comma. *)
Definition isDelim (c : ascii) : bool :=
  ((code c =? 40) || (code c =? 34) || isSpace c
   || (code c =? 45) || (code c =? 44))%N.

(** The callback of the first pattern: a match in capitals is lowered. *)
Definition lowerIfCaps (m : string) : string :=
  if bool_decide (m = toUpperCase m) then toLowerCase m else m.

(** The first pattern of [toTitleCase] matches a delimiter (or the start
    of the string) and the word characters after it, when there are two
    word characters at least. *)
Definition flush (pending : option (string * string)) : string :=
  match pending with
  | Some (delim, word) =>
      if (2 <=? String.length word)%nat then lowerIfCaps (delim +:+ word)
      else delim +:+ word
  | None => ""
  end.

(** The global replacement with the first pattern, read from left to
    right: [pending] holds the delimiter (empty at the start of the string)
    and the word characters of the match being read. *)
Fixpoint lowerCaps (s : string) (pending : option (string * string)) : string :=
  match s with
  | EmptyString => flush pending
  | String c s' =>
      if isWord c then
        match pending with
        | Some (delim, word) => lowerCaps s' (Some (delim, word +:+ String c ""))
        | None => String c (lowerCaps s' None)
        end
      else
        flush pending +:+
        (if isDelim c then lowerCaps s' (Some (String c "", ""))
         else String c (lowerCaps s' None))
  end.

(** The global replacement with the second pattern, a delimiter (or the
    start of the string) and one word character: a word character at the
    start or after a delimiter is put in upper case. *)
Fixpoint capitalize (s : string) (boundary : bool) : string :=
  match s with
  | EmptyString => EmptyString
  | String c s' =>
      String (if boundary && isWord c then upperChar c else c)
             (capitalize s' (isDelim c))
  end.

Definition toTitleCase (str : string) : string :=
  capitalize (lowerCaps (replaceFirstUnderscore str) (Some ("", ""))) true.

End TitleCase.

(** The props of [LabeledValue]; [None] is [undefined]. *)
Record LabeledValueProps : Type := {
  label : string;
  value : option float;
  type : option string;
  className : option string
}.

(** What [LabeledValue] renders: the class of the outer span and the texts
    of the two inner spans, [labelText] followed by a colon in the first and
    [formattedValue] in the second. *)
Record LabeledValueView : Type := {
  spanClass : string;
  labelText : string;
  formattedValue : string
}.

(** A number in arithmetic: [undefined] converts to NaN. *)
Definition toNumber (v : option float) : float := default nan v.

Definition formatForDisplay (val : float) (units : string) : string :=
  JsNumber.toString (JsNumber.Math_round (val * 10) / 10)%float +:+ units.

(** [type || label]: an absent or empty [type] gives way to the label. *)
Definition typeOrLabel (type : option string) (label : string) : string :=
  match type with
  | Some t => if bool_decide (t = "") then label else t
  | None => label
  end.

Definition LabeledValue (p : LabeledValueProps) : LabeledValueView :=
  let valueType := JsString.toLowerCase (typeOrLabel (type p) (label p)) in
  let formattedValue :=
    if bool_decide (valueType = "accuracy")
    then formatForDisplay (toNumber (value p) * 100.0)%float "%"
    else formatForDisplay (toNumber (value p)) "°C" in
  {| spanClass := "mr-3 d-inline-block " +:+ default "undefined" (className p);
     labelText := TitleCase.toTitleCase (label p);
     formattedValue := formattedValue |}.

(** The line a reader sees, white space collapsed. *)
Definition displayText (v : LabeledValueView) : string :=
  labelText v +:+ ": " +:+ formattedValue v.

(** One round of [data.forEach]: the elements pushed so far and the error
    element kept. *)
Definition forEachDatum (acc : list LabeledValueProps * option LabeledValueProps)
    (datum : HoverPoint) : list LabeledValueProps * option LabeledValueProps :=
  let '(formattedData, formattedErrorDatum) := acc in
  match _y datum with
  | None => acc
  | Some v =>
      if negb (JsString.includes (childName datum) "Error") then
        (formattedData ++
           [{| label := childName datum; value := Some v;
               type := None; className := None |}],
         formattedErrorDatum)
      else
        (formattedData,
         Some {| label := "Forecast Error"; value := amount datum;
                 type := None; className := Some "text-danger" |})
  end.

(** [formattedData] of [ActiveDataDisplay] when it is rendered. *)
Definition formattedDataOf (data : list HoverPoint) : list LabeledValueProps :=
  let '(formattedData, formattedErrorDatum) := foldl forEachDatum ([], None) data in
  match formattedErrorDatum with
  | Some e => formattedData ++ [e]
  | None => formattedData
  end.

(** [ActiveDataDisplay]: [None] when nothing is rendered, else the elements
    of the second row (the first row, a date and time in the format of the
    locale, is left out). *)
Definition ActiveDataDisplay (data : list HoverPoint) : option (list LabeledValueProps) :=
  match data with
  | [] => None
  | _ => Some (formattedDataOf data)
  end.

(** The lines of the panel. *)
Definition displaySequence (data : list HoverPoint) : list string :=
  match ActiveDataDisplay data with
  | Some elements => (fun p => displayText (LabeledValue p)) <$> elements
  | None => []
  end.

(** The element [forEachDatum] pushes for a point: none for a point without
    a value or of an error series. *)
Definition valueElementOf (datum : HoverPoint) : option LabeledValueProps :=
  match _y datum with
  | Some v =>
      if JsString.includes (childName datum) "Error" then None
      else Some {| label := childName datum; value := Some v;
                   type := None; className := None |}
  | None => None
  end.

(** The error element [forEachDatum] keeps for a point: one for a point of
    an error series that has a value. *)
Definition errorElementOf (datum : HoverPoint) : option LabeledValueProps :=
  match _y datum with
  | Some _ =>
      if JsString.includes (childName datum) "Error"
      then Some {| label := "Forecast Error"; value := amount datum;
                   type := None; className := Some "text-danger" |}
      else None
  | None => None
  end.

(** ** The day pickers *)

(** [onDayChange] of [ForecastDayPicker]: [day] is [None] when the input
    holds no day, [disabled] is the modifier of the day, [warned] the state
    of the picker. The result is the new state and the day passed to
    [onChange], if it is called. *)
Definition onDayChange {Day : Type} (day : option Day) (disabled warned : bool)
    : bool * option Day :=
  match day with
  | None => (true, None)
  | Some d =>
      if disabled && negb warned then (true, None)
      else if negb disabled then ((if warned then false else warned), Some d)
      else (warned, None)
  end.

(** The text of the advisory span. *)
Definition advisory (warned : bool) : string :=
  " " +:+ (if warned then "Check date." else "").

(** ** Forecast lines and the legend *)

(** A value in a template literal. *)
Definition dayString (d : ActiveDay) : string :=
  match d with
  | DayFalse => "false"
  | DayNull => "null"
  | DayUndefined => "undefined"
  | DayKey k => k
  end.

(** A [VictoryLine] of the forecast group: its name and the opacity of its
    style (its data, the entries of the forecasts, are left out). *)
Record FcastLine : Type := {
  lineName : string;
  lineOpacity : float
}.

(** [i >= 1 ? (9 - i) / 10 : 1.0] at the index [i] of a line. *)
Definition opacityAt (i : nat) : float :=
  if (1 <=? i)%nat then (JsNumber.ofZ (9 - Z.of_nat i) / 10)%float
  else 1.0%float.

(** The line of the lead day [k] at the index [i]. *)
Definition lineOf (i : nat) (k : string) : FcastLine :=
  {| lineName := k +:+ "-Day"; lineOpacity := opacityAt i |}.

(** The lines from the index [i] on; reading the forecasts of a lead day
    that the payload does not have throws. *)
Fixpoint fcastLinesFrom (analysis : VariableAnalysis) (i : nat)
    (days : list ActiveDay) : Result (list FcastLine) :=
  match days with
  | [] => Ok []
  | leadDay :: rest =>
      match Object_get (lead_days analysis) (dayString leadDay) with
      | Some _ =>
          bindR (fcastLinesFrom analysis (S i) rest) (fun lines =>
            Ok ({| lineName := dayString leadDay +:+ "-Day";
                   lineOpacity := opacityAt i |} :: lines))
      | None => TypeError
      end
  end.

(** The children of the group [displayedFcastLines]. *)
Definition displayedFcastLines (analysis : VariableAnalysis)
    (activeDay : ActiveDay) : Result (list FcastLine) :=
  fcastLinesFrom analysis 0 (activeFcasts analysis activeDay).

(** The part of a line style of the chart theme that the legend reads: the
    opacity and the stroke of the data, and the type of the legend symbol
    when the style has one. *)
Record LineStyle : Type := {
  dataOpacity : float;
  dataStroke : string;
  legendSymbolType : option string
}.

(** An entry of [legendData]; the entries of the lead days have no symbol
    type. *)
Record LegendEntry : Type := {
  entryName : string;
  symbolOpacity : float;
  symbolFill : string;
  symbolType : option string;
  labelsOpacity : float
}.

(** The entry of a lead day, from the line of that name if there is one. *)
Definition dayEntry (lines : list FcastLine) (day : string) : LegendEntry :=
  let dayLabel := day +:+ "-Day" in
  let line := find (fun child => bool_decide (lineName child = dayLabel)) lines in
  {| entryName := day +:+ "-Day";
     symbolOpacity :=
       match line with Some l => lineOpacity l | None => 0.1%float end;
     symbolFill := "red";
     symbolType := None;
     labelsOpacity :=
       match line with Some _ => 1%float | None => 0.2%float end |}.

(** The entry of a group with the style [style]. *)
Definition groupEntry (displayName : string) (style : LineStyle)
    (isCharted : bool) : LegendEntry :=
  {| entryName := displayName;
     symbolOpacity := if isCharted then dataOpacity style else 0.2%float;
     symbolFill := dataStroke style;
     symbolType :=
       Some (match legendSymbolType style with
             | Some t => if bool_decide (t = "") then "circle" else t
             | None => "circle"
             end);
     labelsOpacity := if isCharted then 1%float else 0.2%float |}.

(** The style of the error group, which replaces that of the theme. *)
Definition errorStyle : LineStyle :=
  {| dataOpacity := 0.4%float; dataStroke := "magenta";
     legendSymbolType := Some "square" |}.

(** [legendData]: [theme] is the line style of the theme of the chart
    library. The group of the observations has one child, which is not an
    array, so that it counts as charted; the error group is charted when it
    has an area. *)
Definition legendData (theme : LineStyle) (dateValue : string -> option Z)
    (analysis : VariableAnalysis) (activeDay : ActiveDay)
    : Result (list LegendEntry) :=
  bindR (displayedFcastLines analysis activeDay) (fun lines =>
  bindR (displayedErrea dateValue analysis activeDay) (fun areas =>
    Ok ((dayEntry lines <$> Object_keys (lead_days analysis))
        ++ [groupEntry "Actual" theme true;
            groupEntry "Error" errorStyle
              (negb (bool_decide (length areas = 0)))]))).

(** ** The statistics panel *)

Definition activeDayDisplayText (activeDay : ActiveDay) : string :=
  if negb (truthy activeDay) then "Cumulative"
  else dayString activeDay +:+ "-Day".

(** [xs.map(f)] for a callback that may throw. *)
Fixpoint mapResult {A B} (f : A -> Result B) (xs : list A) : Result (list B) :=
  match xs with
  | [] => Ok []
  | a :: xs' => bindR (f a) (fun b => bindR (mapResult f xs') (fun bs => Ok (b :: bs)))
  end.

(** The inner [map] over the properties of a type of statistics: an
    element, or [None] for [false]. *)
Definition statRow (stats : StatsBlock) (type : string)
    : Result (list (option LabeledValueProps)) :=
  match Object_get stats type with
  | Some props =>
      Ok ((fun prop =>
             if JsString.includes type prop
             then Some {| label := type; value := Object_get props prop;
                          type := None; className := None |}
             else None) <$> Object_keys props)
  | None => TypeError
  end.

(** The elements of the second row: [.flat().filter(Boolean)]. *)
Definition statElements (stats : StatsBlock) : Result (list LabeledValueProps) :=
  mapR (fun rows => omap id (concat rows))
       (mapResult (statRow stats) (Object_keys stats)).

(** [ErrorStatsDisplay]: the heading and the elements. *)
Definition ErrorStatsDisplay (analysis : VariableAnalysis) (activeDay : ActiveDay)
    : Result (string * list LabeledValueProps) :=
  let activeDayDisplayText := activeDayDisplayText activeDay in
  bindR (ErrorStatsDisplay_stats analysis activeDay) (fun stats =>
  bindR (statElements stats) (fun elements =>
    Ok ("Forecast Accuracy: " +:+ activeDayDisplayText, elements))).

(** The entries of a block of statistics whose property name occurs in the
    name of their type, in the order of the block. *)
Definition namedAfterType (stats : StatsBlock) : list LabeledValueProps :=
  '(type, props) ← stats;
  omap (fun '(prop, v) =>
          if JsString.includes type prop
          then Some {| label := type; value := Some v;
                       type := None; className := None |}
          else None) props.

(** ** The events of the chart *)

Inductive ChartEvent : Type :=
| LegendClicked (labelName : string)
| Activated (points : list HoverPoint).

Definition chartStep (analysis : VariableAnalysis) (st : ChartState)
    (ev : ChartEvent) : ChartState :=
  match ev with
  | LegendClicked labelName => legendClick analysis labelName st
  | Activated points => onActivated points st
  end.

(** The state of [AnalysisChart] after a sequence of events, from the state
    it is mounted with. *)
Definition chartRun (analysis : VariableAnalysis) (evs : list ChartEvent)
    : ChartState :=
  foldl (chartStep analysis) initialState evs.

(** The active days the chart settles on: [null], or [undefined] when the
    payload has no lead day, or a lead day of the payload. *)
Definition settled (analysis : VariableAnalysis) (a : ActiveDay) : Prop :=
  a = DayNull \/
  (a = DayUndefined /\ Object_keys (lead_days analysis) = []) \/
  exists k, a = DayKey k /\ k ∈ Object_keys (lead_days analysis).

(** Whether two regions that follow each other could be one: the first ends
    exactly one hour before the second starts. *)
Definition joinable (r1 r2 : list Errea.datum) : bool :=
  match last r1, head r2 with
  | Some p, Some q => hourBefore (Errea.x p) (Errea.x q)
  | _, _ => false
  end.

Fixpoint separated (erreas : list (list Errea.datum)) : bool :=
  match erreas with
  | r1 :: (r2 :: _) as rest => negb (joinable r1 r2) && separated rest
  | _ => true
  end.

(** ** The page *)

Definition AnalysisPayload : Type := JsObject VariableAnalysis.

(** The state of [AnalysisPage]; [pageAnalysis] is [None] for a falsy
    value. *)
Record PageState : Type := {
  weather : string;
  pageAnalysis : option AnalysisPayload;
  statusMessage : string
}.

(** What happens to the page: a date range is submitted, the response of a
    request arrives as JSON, a request fails with a message, a tab is
    selected. *)
Inductive PageEvent : Type :=
| Submitted
| JsonArrived (json : option AnalysisPayload)
| RequestFailed (message : string)
| TabSelected (key : string).

Definition pageStep (st : PageState) (ev : PageEvent) : PageState :=
  match ev with
  | Submitted =>
      {| weather := weather st; pageAnalysis := None;
         statusMessage := "Retrieving..." |}
  | JsonArrived json =>
      {| weather := weather st; pageAnalysis := json;
         statusMessage := statusMessage st |}
  | RequestFailed message =>
      {| weather := weather st; pageAnalysis := pageAnalysis st;
         statusMessage := message |}
  | TabSelected key =>
      {| weather := key; pageAnalysis := pageAnalysis st;
         statusMessage := statusMessage st |}
  end.

(** The page as mounted: [testData] is what [JSON.parse(testData)] gives. *)
Definition pageMounted (testData : option AnalysisPayload) : PageState :=
  {| weather := "temperature"; pageAnalysis := testData;
     statusMessage := "Select date range." |}.

(** The row under the form: the status message when there is no analysis. *)
Definition statusShown (st : PageState) : option string :=
  match pageAnalysis st with
  | Some _ => None
  | None => Some (statusMessage st)
  end.

(** ** Sample data *)

Module Sample.

Definition day1 : LeadDayAnalysis :=
  {| fcasts := list_to_map [("2019-03-01T00:00:00Z", 16.1%float);
                            ("2019-03-01T01:00:00Z", 15.2%float);
                            ("2019-03-01T03:00:00Z", 14.0%float)];
     errors := [("2019-03-01T00:00:00Z", (-2.3)%float);
                ("2019-03-01T01:00:00Z", 0.7%float);
                ("2019-03-01T03:00:00Z", 1.5%float)];
     stats := [("bias", [("bias", (-0.4)%float)]);
               ("accuracy", [("accuracy", 0.873%float)])] |}.

(** The same hours, enumerated latest first. *)
Definition day2 : LeadDayAnalysis :=
  {| fcasts := list_to_map [("2019-03-01T01:00:00Z", 15.9%float);
                            ("2019-03-01T00:00:00Z", 17.0%float)];
     errors := [("2019-03-01T01:00:00Z", 1.4%float);
                ("2019-03-01T00:00:00Z", (-1.4)%float)];
     stats := [("bias", [("bias", 0.9%float)]);
               ("accuracy", [("accuracy", 0.5%float)])] |}.

(** A lead day with no error. *)
Definition noErrors : LeadDayAnalysis :=
  {| fcasts := ∅; errors := []; stats := [] |}.

Definition analysis : VariableAnalysis :=
  {| metadata := {| display_name := "Temperature"; prop_name := "temperature" |};
     obs := list_to_map [("2019-03-01T00:00:00Z", 18.4%float);
                         ("2019-03-01T01:00:00Z", 14.5%float);
                         ("2019-03-01T03:00:00Z", 12.5%float)];
     lead_days := [("1", day1); ("2", day2)];
     cumulative_stats := [("bias", [("bias", 0.25%float)]);
                          ("accuracy", [("accuracy", 0.69%float)])] |}.

(** Hover points: a point of a forecast line and points of an error
    area, with and without a value. *)
Definition linePoint : HoverPoint :=
  {| childName := "1-Day"; _y := Some 18.4%float; amount := None |}.

Definition errorPoint : HoverPoint :=
  {| childName := "Error-Area-0"; _y := Some 16.1%float;
     amount := Some (-2.3)%float |}.

Definition errorPointNoValue : HoverPoint :=
  {| childName := "Error-Area-0"; _y := None; amount := Some (-2.3)%float |}.

Definition isolated (day : string) : ChartState :=
  {| activeFcastDay := DayKey day; activeData := [] |}.

End Sample.

(** The weather types the page makes a tab for. *)
Definition workingWeathers : list string :=
  ["temperature"; "dewpoint"; "wind_speed"; "cloud_cover"].

Record TabProps : Type := {
  eventKey : string;
  title : string
}.

(** The tabs of the page when it has an analysis: reading the metadata of
    a weather type that the analysis does not have throws. *)
Definition pageTabs (analysis : AnalysisPayload) : Result (list TabProps) :=
  mapResult
    (fun weatherType =>
       match Object_get analysis weatherType with
       | Some a => Ok {| eventKey := prop_name (metadata a);
                         title := display_name (metadata a) |}
       | None => TypeError
       end)
    workingWeathers.

(** The page after a sequence of events. *)
Definition pageRun (testData : option AnalysisPayload) (evs : list PageEvent)
    : PageState :=
  foldl pageStep (pageMounted testData) evs.

(** ** More sample data *)

Module MoreSamples.

(** Three errors, an hour apart, enumerated in ascending order. *)
Definition hourlyDay : LeadDayAnalysis :=
  {| fcasts := list_to_map [("2019-03-01T00:00:00Z", 16.1%float)];
     errors := [("2019-03-01T00:00:00Z", (-2.3)%float);
                ("2019-03-01T01:00:00Z", 0.7%float);
                ("2019-03-01T02:00:00Z", 1.5%float)];
     stats := [("bias", [("bias", 0.1%float); ("n", 3%float)])] |}.

Definition theme : LineStyle :=
  {| dataOpacity := 1%float; dataStroke := "#252525"; legendSymbolType := None |}.

Definition payload : AnalysisPayload := [("temperature", Sample.analysis)].

(** A point of an error area that carries no amount. *)
Definition errorPointNoAmount : HoverPoint :=
  {| childName := "Error-Area-1"; _y := Some 14.0%float; amount := None |}.

(** The error areas of the first sample day, and the first of them. *)
Definition areas1 : list Errea.area :=
  match displayedErrea IsoDate.valueOf Sample.analysis (DayKey "1") with
  | Ok areas => areas
  | TypeError => []
  end.

Definition area1 : Errea.area :=
  default {| Errea.name := ""; Errea.data := [] |} (head areas1).

(** A payload with observations and cumulative statistics, and no lead
    day. *)
Definition noLeadDays : VariableAnalysis :=
  {| metadata := {| display_name := "Temperature"; prop_name := "temperature" |};
     obs := list_to_map [("2019-03-01T00:00:00Z", 18.4%float)];
     lead_days := [];
     cumulative_stats := [("bias", [("bias", 0.25%float)])] |}.

End MoreSamples.

(** * Properties *)

(** A decidable proposition about concrete data, settled by evaluation. *)
Ltac by_decision := apply (bool_decide_unpack _); vm_compute; exact I.

(** ** Strings *)

Lemma append_empty_r (s : string) : s +:+ "" = s.
Proof.
  induction s as [|c s IH]; [done|].
  change (String c (s +:+ "") = String c s). by rewrite IH.
Qed.

Lemma append_assoc (s1 s2 s3 : string) : (s1 +:+ s2) +:+ s3 = s1 +:+ (s2 +:+ s3).
Proof.
  induction s1 as [|c s1 IH]; [done|].
  change (String c ((s1 +:+ s2) +:+ s3) = String c (s1 +:+ (s2 +:+ s3))).
  by rewrite IH.
Qed.

Lemma digit_not_hyphen (c : ascii) :
  JsString.isDigit c = true -> c <> "-"%char.
Proof. intros H ->. discriminate H. Qed.

Lemma digit_not_E (c : ascii) :
  JsString.isDigit c = true -> c <> "E"%char.
Proof. intros H ->. discriminate H. Qed.

(** A label [d-Day] whose [d] has no hyphen splits at the suffix. *)
Lemma splitFrom_day_label (d cur : string) :
  JsString.allChars (fun c => negb (bool_decide (c = "-"%char))) d = true ->
  JsString.splitFrom "-Day" (d +:+ "-Day") 0 cur = [cur +:+ d; ""].
Proof.
  revert cur. induction d as [|c d IH]; intros cur H.
  - cbn. by rewrite append_empty_r.
  - cbn in H. apply andb_prop in H as [Hc Hd].
    apply negb_true_iff, bool_decide_eq_false in Hc.
    change (String c d +:+ "-Day") with (String c (d +:+ "-Day")).
    cbn [JsString.splitFrom].
    replace (String.prefix "-Day" (String c (d +:+ "-Day"))) with false.
    + rewrite IH by done. by rewrite append_assoc.
    + cbn [String.prefix]. destruct (ascii_dec "-" c) as [E|_]; [by destruct Hc|done].
Qed.

Lemma digits_no_hyphen (d : string) :
  JsString.allChars JsString.isDigit d = true ->
  JsString.allChars (fun c => negb (bool_decide (c = "-"%char))) d = true.
Proof.
  induction d as [|c d IH]; [done|]. cbn. intros [Hc Hd]%andb_prop.
  rewrite IH by done. rewrite andb_true_r.
  apply negb_true_iff, bool_decide_eq_false. by apply digit_not_hyphen.
Qed.

Lemma split_day_label (d : string) :
  JsString.allChars JsString.isDigit d = true ->
  JsString.split (d +:+ "-Day") "-Day" = [d; ""].
Proof.
  intros H. unfold JsString.split.
  by rewrite splitFrom_day_label by by apply digits_no_hyphen.
Qed.

Lemma includes_Error_day_label (d : string) :
  JsString.allChars JsString.isDigit d = true ->
  JsString.includes (d +:+ "-Day") "Error" = false.
Proof.
  induction d as [|c d IH]; [done|]. cbn [JsString.allChars].
  intros [Hc Hd]%andb_prop.
  change (String c d +:+ "-Day") with (String c (d +:+ "-Day")).
  cbn [JsString.includes]. rewrite IH by done. rewrite orb_false_r.
  cbn [String.prefix]. destruct (ascii_dec "E" c) as [E|_]; [|done].
  by destruct (digit_not_E c).
Qed.

Lemma isLeadDayKey_digits (k : string) :
  isLeadDayKey k = true -> JsString.allChars JsString.isDigit k = true.
Proof. by intros [_ H]%andb_prop. Qed.

Lemma isLeadDayKey_truthy (k : string) :
  isLeadDayKey k = true -> truthy (DayKey k) = true.
Proof. by intros [H _]%andb_prop. Qed.

Lemma day_label_not_Actual (d : string) :
  JsString.allChars JsString.isDigit d = true -> d +:+ "-Day" <> "Actual".
Proof.
  intros H E. apply split_day_label in H. rewrite E in H. discriminate H.
Qed.

Lemma DayKey_elem_of (k : string) (ks : list string) :
  DayKey k ∈ DayKey <$> ks <-> k ∈ ks.
Proof.
  rewrite list_elem_of_fmap. split.
  - by intros (k' & [= ->] & H).
  - eauto.
Qed.

(** ** The legend state machine *)

Section Legend.

Variable analysis : VariableAnalysis.

Let allKeys : list string := Object_keys (lead_days analysis).

Lemma Array_includes_keys (k : string) :
  Array_includes (DayKey <$> allKeys) (DayKey k) = bool_decide (k ∈ allKeys).
Proof. unfold Array_includes. apply bool_decide_ext, DayKey_elem_of. Qed.

Lemma activeDay_after_click (labelName : string) (st : ChartState) :
  activeFcastDay (legendClick analysis labelName st) =
  let d := newActiveDayOf analysis (activeFcastDay st) labelName in
  if decide (d = DayFalse) then activeFcastDay st else d.
Proof. reflexivity. Qed.

Lemma cumulative_click_day (activeDay : ActiveDay) (d : string) :
  truthy activeDay = false ->
  JsString.allChars JsString.isDigit d = true ->
  d ∈ allKeys ->
  newActiveDayOf analysis activeDay (d +:+ "-Day") = DayKey d.
Proof.
  intros Hc Hd Hin. unfold newActiveDayOf.
  rewrite Hc, split_day_label, includes_Error_day_label by done.
  cbn [negb fmap list_fmap first]. fold allKeys.
  by rewrite Array_includes_keys, bool_decide_eq_true_2.
Qed.

Lemma cumulative_click_Error (activeDay : ActiveDay) :
  truthy activeDay = false ->
  newActiveDayOf analysis activeDay "Error" = first (DayKey <$> allKeys).
Proof.
  intros Hc. unfold newActiveDayOf, activeFcasts. by rewrite Hc.
Qed.

Lemma cumulative_click_Actual (activeDay : ActiveDay) :
  truthy activeDay = false ->
  "Actual" ∉ allKeys ->
  newActiveDayOf analysis activeDay "Actual" = DayFalse.
Proof.
  intros Hc Hin. unfold newActiveDayOf. rewrite Hc.
  change (JsString.includes "Actual" "Error") with false.
  change (first (DayKey <$> JsString.split "Actual" "-Day")) with (DayKey "Actual").
  cbn [negb]. fold allKeys.
  by rewrite Array_includes_keys, bool_decide_eq_false_2.
Qed.

Lemma isolated_click_Actual (activeDay : ActiveDay) :
  truthy activeDay = true ->
  newActiveDayOf analysis activeDay "Actual" = DayNull.
Proof. intros Hc. unfold newActiveDayOf. by rewrite Hc. Qed.

Lemma isolated_click_own (day : string) :
  isLeadDayKey day = true ->
  newActiveDayOf analysis (DayKey day) (day +:+ "-Day") = DayNull.
Proof.
  intros Hk. unfold newActiveDayOf, activeFcasts.
  rewrite (isLeadDayKey_truthy day Hk).
  rewrite split_day_label by by apply isLeadDayKey_digits.
  cbn [negb fmap list_fmap first]. unfold Array_includes at 1.
  rewrite (bool_decide_eq_true_2 (DayKey day ∈ [DayKey day]))
    by by apply list_elem_of_singleton.
  by rewrite orb_true_r.
Qed.

Lemma isolated_click_other (day other : string) :
  isLeadDayKey day = true ->
  isLeadDayKey other = true ->
  other ∈ allKeys ->
  other <> day ->
  newActiveDayOf analysis (DayKey day) (other +:+ "-Day") = DayKey other.
Proof.
  intros Hk Ho Hin Hne. unfold newActiveDayOf, activeFcasts.
  rewrite (isLeadDayKey_truthy day Hk).
  rewrite split_day_label by by apply isLeadDayKey_digits.
  cbn [negb fmap list_fmap first]. unfold Array_includes at 1.
  rewrite (bool_decide_eq_false_2 (other +:+ "-Day" = "Actual"))
    by by apply day_label_not_Actual, isLeadDayKey_digits.
  rewrite (bool_decide_eq_false_2 (DayKey other ∈ [DayKey day]))
    by (rewrite list_elem_of_singleton; congruence).
  cbn [orb]. fold allKeys.
  by rewrite Array_includes_keys, bool_decide_eq_true_2.
Qed.

(** C4. Starting from the cumulative view (active day [null]), a click on
    the legend entry [d-Day] of a lead day [d] of the payload isolates [d],
    and a second click on the same entry brings the cumulative view back. *)
Theorem legend_two_clicks_round_trip (d : string) (st : ChartState) :
  isLeadDayKey d = true ->
  d ∈ Object_keys (lead_days analysis) ->
  activeFcastDay st = DayNull ->
  let st1 := legendClick analysis (d +:+ "-Day") st in
  activeFcastDay st1 = DayKey d /\
  activeFcastDay (legendClick analysis (d +:+ "-Day") st1) = DayNull.
Proof.
  intros Hk Hin Hst st1.
  assert (H1 : activeFcastDay st1 = DayKey d).
  { unfold st1. rewrite activeDay_after_click, Hst. cbn zeta.
    rewrite cumulative_click_day by (done || by apply isLeadDayKey_digits).
    done. }
  split; [done|].
  rewrite activeDay_after_click, H1. cbn zeta.
  by rewrite isolated_click_own.
Qed.

(** C5. With a lead day isolated, a click on [Actual] or on the entry of
    the isolated day brings the cumulative view back (active day [null]),
    and a click on the entry of another lead day of the payload isolates
    that day in the one transition. *)
Theorem isolated_click_transitions (day other : string) (st : ChartState) :
  isLeadDayKey day = true ->
  isLeadDayKey other = true ->
  other ∈ Object_keys (lead_days analysis) ->
  other <> day ->
  activeFcastDay st = DayKey day ->
  activeFcastDay (legendClick analysis "Actual" st) = DayNull /\
  activeFcastDay (legendClick analysis (day +:+ "-Day") st) = DayNull /\
  activeFcastDay (legendClick analysis (other +:+ "-Day") st) = DayKey other.
Proof.
  intros Hk Ho Hin Hne Hst. rewrite !activeDay_after_click, Hst. cbn zeta.
  rewrite isolated_click_Actual by by apply isLeadDayKey_truthy.
  rewrite isolated_click_own by done.
  by rewrite isolated_click_other.
Qed.

(** C6. In the cumulative view (active day [null]), a click on [Error]
    isolates the first lead day displayed, which is the first key of the
    payload's lead days, and a click on [Actual] leaves the state as it
    is. *)
Theorem cumulative_click_Error_and_Actual (k : string) (ks : list string)
    (st : ChartState) :
  Object_keys (lead_days analysis) = k :: ks ->
  Forall (fun k' => isLeadDayKey k' = true) (k :: ks) ->
  activeFcastDay st = DayNull ->
  activeFcasts analysis (activeFcastDay st) = DayKey <$> (k :: ks) /\
  activeFcastDay (legendClick analysis "Error" st) = DayKey k /\
  activeFcastDay (legendClick analysis "Actual" st) = DayNull.
Proof.
  intros Hkeys Hwf Hst. rewrite !activeDay_after_click, Hst. cbn zeta.
  rewrite cumulative_click_Error by done.
  split; [unfold activeFcasts; by rewrite <- Hkeys|].
  unfold allKeys. rewrite Hkeys. split; [done|].
  rewrite cumulative_click_Actual; [done..|].
  unfold allKeys. rewrite Hkeys. intros Hin.
  rewrite Forall_forall in Hwf. by specialize (Hwf _ Hin).
Qed.

End Legend.

(** A click whose label, cut at its first [-Day], is not a lead-day key of
    the payload leaves the active day as it is, when the label does not
    contain [Error] and no day is isolated, and when it is neither [Actual]
    nor cut to the isolated day and a day is isolated. *)
Lemma unknown_label_click_keeps_active_day (analysis : VariableAnalysis)
    (labelName : string) (st : ChartState) :
  let day := first (DayKey <$> JsString.split labelName "-Day") in
  day ∉ DayKey <$> Object_keys (lead_days analysis) ->
  (if truthy (activeFcastDay st)
   then labelName <> "Actual" /\ day <> activeFcastDay st
   else JsString.includes labelName "Error" = false) ->
  activeFcastDay (legendClick analysis labelName st) = activeFcastDay st.
Proof.
  intros day Hday Hlabel. rewrite activeDay_after_click. cbn zeta.
  unfold newActiveDayOf, activeFcasts. fold day.
  unfold Array_includes. rewrite (bool_decide_eq_false_2 _ Hday).
  destruct (truthy (activeFcastDay st)); cbn [negb].
  - destruct Hlabel as [HA Hown].
    rewrite (bool_decide_eq_false_2 _ HA).
    rewrite (bool_decide_eq_false_2 (day ∈ [activeFcastDay st]))
      by by rewrite list_elem_of_singleton.
    done.
  - by rewrite Hlabel.
Qed.

(** C10. A hover activation calls the change handler with [false] for the
    active day, the handler changes the active day only when it is passed a
    value other than [false], and so the activation keeps the active day and
    replaces the hover points by the ones just activated. *)
Theorem hover_keeps_active_day (points : list HoverPoint) (st : ChartState)
    (newActiveDay : ActiveDay) (newActiveData : option (list HoverPoint)) :
  onActivated points st = handleChange DayFalse (Some points) st /\
  activeFcastDay (handleChange newActiveDay newActiveData st) =
    (if decide (newActiveDay = DayFalse) then activeFcastDay st else newActiveDay) /\
  activeFcastDay (onActivated points st) = activeFcastDay st /\
  activeData (onActivated points st) = points.
Proof.
  unfold onActivated, handleChange. cbn [activeFcastDay activeData].
  by destruct (decide (DayFalse = DayFalse)).
Qed.

(** ** Error areas *)

Lemma hourBefore_spec (a b : option Z) :
  hourBefore a b = true <-> exists t, a = Some t /\ b = Some (t + 3600000)%Z.
Proof.
  destruct a as [ta|], b as [tb|]; cbn; split;
    try discriminate; try (by intros (t & ? & ?)).
  - intros H%Z.eqb_eq. exists ta. split; [done|]. f_equal. lia.
  - intros (t & [= ->] & [= ->]). apply Z.eqb_eq. lia.
Qed.

Lemma gapPositions_snoc (ts : list (option Z)) (a t : option Z) :
  gapPositions ((ts ++ [a]) ++ [t]) =
  gapPositions (ts ++ [a]) + (if hourBefore a t then 0 else 1).
Proof.
  induction ts as [|b ts IH]; [cbn; lia|].
  destruct ts as [|c ts]; [cbn; lia|].
  change (gapPositions (((b :: c :: ts) ++ [a]) ++ [t])) with
    ((if hourBefore b c then 0 else 1) + gapPositions (((c :: ts) ++ [a]) ++ [t])).
  change (gapPositions ((b :: c :: ts) ++ [a])) with
    ((if hourBefore b c then 0 else 1) + gapPositions ((c :: ts) ++ [a])).
  rewrite IH. lia.
Qed.

Lemma hourlySteps_snoc (ts : list (option Z)) (a t : option Z) :
  hourlySteps ((ts ++ [a]) ++ [t]) = hourlySteps (ts ++ [a]) && hourBefore a t.
Proof.
  induction ts as [|b ts IH]; [cbn; by rewrite andb_true_r|].
  destruct ts as [|c ts]; [cbn; by destruct (hourBefore b a), (hourBefore a t)|].
  change (hourlySteps (((b :: c :: ts) ++ [a]) ++ [t])) with
    (hourBefore b c && hourlySteps (((c :: ts) ++ [a]) ++ [t])).
  change (hourlySteps ((b :: c :: ts) ++ [a])) with
    (hourBefore b c && hourlySteps ((c :: ts) ++ [a])).
  rewrite IH. by rewrite andb_assoc.
Qed.

Lemma hourlySteps_no_gap (ts : list (option Z)) :
  hourlySteps ts = bool_decide (gapPositions ts = 0).
Proof.
  induction ts as [|a ts IH]; [done|]. destruct ts as [|b ts]; [done|].
  change (hourlySteps (a :: b :: ts)) with (hourBefore a b && hourlySteps (b :: ts)).
  change (gapPositions (a :: b :: ts)) with
    ((if hourBefore a b then 0 else 1) + gapPositions (b :: ts)).
  rewrite IH. destruct (hourBefore a b); [done|].
  cbn [andb]. symmetry. apply bool_decide_eq_false. lia.
Qed.

Lemma hourlySteps_next (ts : list (option Z)) (i : nat) (a b : option Z) :
  hourlySteps ts = true ->
  ts !! i = Some a -> ts !! S i = Some b -> hourBefore a b = true.
Proof.
  revert i. induction ts as [|c ts IH]; intros i H Ha Hb; [done|].
  destruct ts as [|c' ts]; [done|].
  change (hourBefore c c' && hourlySteps (c' :: ts) = true) in H.
  apply andb_prop in H as [H1 H2].
  destruct i as [|i]; [by simplify_eq/=|].
  by apply (IH i).
Qed.

Lemma hourlySteps_apart (ts : list (option Z)) (i k : nat) (a b : option Z) :
  hourlySteps ts = true ->
  ts !! i = Some a -> ts !! (i + S k) = Some b ->
  exists t, a = Some t /\ b = Some (t + 3600000 * Z.of_nat (S k))%Z.
Proof.
  intros H Ha. revert b. induction k as [|k IH]; intros b Hb.
  - replace (i + 1) with (S i) in Hb by lia.
    apply (hourlySteps_next ts i a b H Ha), hourBefore_spec in Hb as (t & -> & ->).
    exists t. split; [done|f_equal; lia].
  - destruct (lookup_lt_is_Some_2 ts (i + S k)) as [c Hc].
    { apply lookup_lt_Some in Hb. lia. }
    destruct (IH c Hc) as (t & -> & ->).
    replace (i + S (S k)) with (S (i + S k)) in Hb by lia.
    apply (hourlySteps_next ts _ _ b H Hc), hourBefore_spec in Hb as (t' & [= <-] & ->).
    exists t. split; [done|f_equal; lia].
Qed.

Lemma reduce_snoc {A B} (f : B -> A -> Result B) (xs : list A) (a : A) (init : B) :
  reduce f (xs ++ [a]) init = bindR (reduce f xs init) (fun acc => f acc a).
Proof.
  revert init. induction xs as [|x xs IH]; intros init; cbn.
  - by destruct (f init a).
  - destruct (f init x); [apply IH|done].
Qed.

Lemma regionCount_snoc (ts : list (option Z)) (a t : option Z) :
  regionCount ((ts ++ [a]) ++ [t]) =
  regionCount (ts ++ [a]) + (if hourBefore a t then 0 else 1).
Proof.
  destruct ts as [|b ts]; [cbn; by destruct (hourBefore a t)|].
  change (S (gapPositions (((b :: ts) ++ [a]) ++ [t])) =
          S (gapPositions ((b :: ts) ++ [a])) + (if hourBefore a t then 0 else 1)).
  by rewrite gapPositions_snoc.
Qed.

Section ErrorAreaFacts.

Variable dateValue : string -> option Z.
Variable analysis : VariableAnalysis.
Variable ld : LeadDayAnalysis.

Let datumOf := erreaDatumOf dateValue analysis ld.
Let reducer := erreaReducer dateValue analysis ld.

Lemma datum_time (entry : string * float) :
  Errea.x (datumOf entry) = dateValue entry.1.
Proof. by destruct entry. Qed.

Lemma reducer_first (entry : string * float) :
  reducer [] entry = Ok [[datumOf entry]].
Proof. reflexivity. Qed.

Lemma reducer_next (erreas : list (list Errea.datum)) (errea : list Errea.datum)
    (p : Errea.datum) (entry : string * float) :
  reducer (erreas ++ [errea ++ [p]]) entry =
  if hourBefore (Errea.x p) (dateValue entry.1)
  then Ok (erreas ++ [(errea ++ [p]) ++ [datumOf entry]])
  else Ok ((erreas ++ [errea ++ [p]]) ++ [[datumOf entry]]).
Proof.
  unfold reducer, erreaReducer. fold datumOf.
  rewrite !last_snoc, datum_time. by rewrite removelast_last.
Qed.

(** What the [reduce] has built after the entries [es]: the points of the
    entries in their order, cut into non-empty regions that advance by the
    hour, one region more than there are gaps. *)
Lemma regions_built (es : list (string * float)) :
  exists erreas,
    reduce reducer es [] = Ok erreas /\
    concat erreas = datumOf <$> es /\
    Forall (fun errea => errea <> [] /\ hourlySteps (Errea.x <$> errea) = true)
           erreas /\
    length erreas = regionCount (dateValue <$> es.*1).
Proof.
  induction es as [|entry es IH] using rev_ind.
  { exists []. by repeat split. }
  destruct IH as (erreas & Hred & Hcat & Hall & Hlen).
  rewrite reduce_snoc, Hred. cbn [bindR].
  destruct erreas as [|errea erreas _] using rev_ind.
  - (* the first entry *)
    symmetry in Hcat. apply fmap_nil_inv in Hcat as ->.
    exists [[datumOf entry]]. rewrite reducer_first.
    repeat split; try done. by repeat constructor.
  - apply Forall_app in Hall as [Hall Hlast].
    apply Forall_singleton in Hlast as [Hne Hsteps].
    destruct errea as [|p errea _] using rev_ind; [done|]. clear Hne.
    (* the last point built is the point of the last entry read *)
    assert (exists es' entry', es = es' ++ [entry'] /\ datumOf entry' = p)
      as (es' & entry' & -> & Hp).
    { destruct es as [|entry' es' _] using rev_ind.
      - rewrite concat_app in Hcat. cbn in Hcat.
        by destruct (concat erreas), errea.
      - exists es', entry'. split; [done|].
        rewrite concat_app, fmap_app in Hcat. cbn in Hcat.
        rewrite app_nil_r, app_assoc in Hcat.
        by apply app_inj_tail in Hcat as [_ ->]. }
    subst p. rewrite reducer_next, datum_time.
    rewrite !fmap_app. cbn [fmap list_fmap].
    rewrite regionCount_snoc.
    rewrite !fmap_app in Hlen. cbn [fmap list_fmap] in Hlen.
    rewrite length_app in Hlen. cbn [length] in Hlen.
    rewrite fmap_app in Hsteps. cbn [fmap list_fmap] in Hsteps.
    rewrite datum_time in Hsteps.
    rewrite concat_app in Hcat. cbn [concat] in Hcat.
    rewrite app_nil_r, fmap_app in Hcat. cbn [fmap list_fmap] in Hcat.
    destruct (hourBefore (dateValue entry'.1) (dateValue entry.1)) eqn:Hhour;
      eexists; (split; [done|]).
    + repeat split.
      * rewrite concat_app. cbn [concat].
        by rewrite app_nil_r, <- Hcat, !app_assoc.
      * apply Forall_app. split; [done|]. apply Forall_singleton.
        split; [by destruct errea|].
        rewrite !fmap_app. cbn [fmap list_fmap].
        by rewrite hourlySteps_snoc, !datum_time, Hhour, Hsteps.
      * rewrite length_app. cbn [length]. lia.
    + repeat split.
      * rewrite !concat_app. cbn [concat].
        by rewrite !app_nil_r, <- Hcat, !app_assoc.
      * apply Forall_app. split; [|by repeat constructor].
        apply Forall_app. split; [done|]. apply Forall_singleton.
        split; [by destruct errea|].
        rewrite fmap_app. cbn [fmap list_fmap]. by rewrite datum_time.
      * rewrite !length_app. cbn [length]. lia.
Qed.

(** C1 (as amended). An empty errors object gives no region. A non-empty
    one gives one region more than there are positions at which the next
    entry, in the order in which the object enumerates its entries, is not
    exactly one hour after the current one; so it gives exactly one region
    exactly when its entries are enumerated at one-hour steps. *)
Theorem region_count_in_enumeration_order :
  match errors ld with
  | [] => erreaRegions dateValue analysis ld = Ok []
  | _ :: _ =>
      exists erreas,
        erreaRegions dateValue analysis ld = Ok erreas /\
        length erreas = S (gapPositions (timesOf dateValue (errors ld))) /\
        bool_decide (length erreas = 1) =
          hourlySteps (timesOf dateValue (errors ld))
  end.
Proof.
  destruct (regions_built (errors ld)) as (erreas & Hred & _ & _ & Hlen).
  unfold erreaRegions, timesOf, Object_keys. fold reducer.
  destruct (errors ld) as [|entry es]; [done|].
  exists erreas. change (regionCount _) with
    (S (gapPositions (dateValue <$> (entry :: es).*1))) in Hlen.
  repeat split; [done..|].
  rewrite hourlySteps_no_gap, Hlen. apply bool_decide_ext. lia.
Qed.

(** C2 (as amended). The regions hold the points of the entries in the
    order in which the errors object enumerates them (the entries are not
    sorted); no region is empty, and within a region the time grows by
    exactly 3,600,000 ms from a point to the next, so that the times of a
    region increase. *)
Theorem regions_keep_enumeration_order_and_hourly_steps :
  exists erreas,
    erreaRegions dateValue analysis ld = Ok erreas /\
    concat erreas = erreaDatumOf dateValue analysis ld <$> errors ld /\
    forall errea, errea ∈ erreas ->
      errea <> [] /\
      forall (i k : nat) (p q : Errea.datum),
        errea !! i = Some p -> errea !! (i + S k) = Some q ->
        exists t, Errea.x p = Some t /\
                  Errea.x q = Some (t + 3600000 * Z.of_nat (S k))%Z.
Proof.
  destruct (regions_built (errors ld)) as (erreas & Hred & Hcat & Hall & _).
  exists erreas. repeat split; [done..| |].
  - rewrite Forall_forall in Hall. by apply Hall.
  - rewrite Forall_forall in Hall. destruct (Hall _ H) as [_ Hsteps].
    intros i k p q Hp Hq.
    apply (hourlySteps_apart (Errea.x <$> errea) i k); [done|..];
      rewrite list_lookup_fmap; by (rewrite Hp || rewrite Hq).
Qed.

End ErrorAreaFacts.

(** The regions of the first sample day: the hours 00:00 and 01:00 make one
    region, the hour 03:00 another. *)
Example sample_regions :
  regionTimes (erreaRegions IsoDate.valueOf Sample.analysis Sample.day1) =
  Ok [[Some 1551398400000%Z; Some 1551402000000%Z]; [Some 1551409200000%Z]].
Proof. vm_compute. reflexivity. Qed.

Example sample_areas :
  mapR (map Errea.name) (displayedErrea IsoDate.valueOf Sample.analysis (DayKey "1")) =
  Ok ["Error-Area-0"; "Error-Area-1"].
Proof. vm_compute. reflexivity. Qed.

(** C1, on the code. The second sample day enumerates 01:00 before 00:00:
    taken in ascending order its timestamps are one hour apart, with no gap
    position, and the builder gives two regions, not one. A lead day with no
    error gives no region, though its gap positions plus one make one. *)
Lemma hourly_errors_enumerated_backwards_give_two_regions :
  hourlySteps (ascendingTimes (timesOf IsoDate.valueOf (errors Sample.day2))) = true /\
  gapPositions (ascendingTimes (timesOf IsoDate.valueOf (errors Sample.day2))) + 1 = 1 /\
  mapR length (erreaRegions IsoDate.valueOf Sample.analysis Sample.day2) = Ok 2 /\
  gapPositions (ascendingTimes (timesOf IsoDate.valueOf (errors Sample.noErrors))) + 1 = 1 /\
  mapR length (erreaRegions IsoDate.valueOf Sample.analysis Sample.noErrors) = Ok 0.
Proof. vm_compute. done. Qed.

(** C2, on the code. On the second sample day the builder reads 01:00
    first and 00:00 second, the order of the errors object, which is not the
    ascending order of the timestamps. *)
Lemma regions_follow_enumeration_not_ascending_order :
  regionTimes (erreaRegions IsoDate.valueOf Sample.analysis Sample.day2) =
    Ok [[Some 1551402000000%Z]; [Some 1551398400000%Z]] /\
  ascendingTimes (timesOf IsoDate.valueOf (errors Sample.day2)) =
    [Some 1551398400000%Z; Some 1551402000000%Z].
Proof. vm_compute. done. Qed.

(** ** The legend on the sample payload *)

(** Two clicks on [2-Day], from the initial state. *)
Lemma legend_two_clicks_round_trip_sample :
  activeFcastDay (legendClick Sample.analysis "2-Day" initialState) = DayKey "2" /\
  activeFcastDay (legendClick Sample.analysis "2-Day"
                    (legendClick Sample.analysis "2-Day" initialState)) = DayNull.
Proof.
  apply (legend_two_clicks_round_trip Sample.analysis "2" initialState).
  - reflexivity.
  - by_decision.
  - reflexivity.
Defined.

(** The three clicks with the day 1 isolated. *)
Lemma isolated_click_transitions_sample :
  activeFcastDay (legendClick Sample.analysis "Actual" (Sample.isolated "1")) = DayNull /\
  activeFcastDay (legendClick Sample.analysis "1-Day" (Sample.isolated "1")) = DayNull /\
  activeFcastDay (legendClick Sample.analysis "2-Day" (Sample.isolated "1")) = DayKey "2".
Proof.
  apply (isolated_click_transitions Sample.analysis "1" "2" (Sample.isolated "1")).
  - reflexivity.
  - reflexivity.
  - by_decision.
  - discriminate.
  - reflexivity.
Defined.

(** Clicks on [Error] and on [Actual] in the initial state. *)
Lemma cumulative_click_Error_and_Actual_sample :
  activeFcasts Sample.analysis (activeFcastDay initialState) = [DayKey "1"; DayKey "2"] /\
  activeFcastDay (legendClick Sample.analysis "Error" initialState) = DayKey "1" /\
  activeFcastDay (legendClick Sample.analysis "Actual" initialState) = DayNull.
Proof.
  apply (cumulative_click_Error_and_Actual Sample.analysis "1" ["2"] initialState).
  - reflexivity.
  - repeat constructor.
  - reflexivity.
Defined.

(** ** The display of the hovered points *)

Lemma forEachDatum_spec (formattedData : list LabeledValueProps)
    (formattedErrorDatum : option LabeledValueProps) (datum : HoverPoint) :
  forEachDatum (formattedData, formattedErrorDatum) datum =
  (formattedData ++ option_list (valueElementOf datum),
   from_option Some formattedErrorDatum (errorElementOf datum)).
Proof.
  unfold forEachDatum, valueElementOf, errorElementOf.
  destruct (_y datum); [|by rewrite app_nil_r].
  destruct (JsString.includes (childName datum) "Error"); cbn;
    by rewrite ?app_nil_r.
Qed.

Lemma forEach_fold (data : list HoverPoint) (formattedData : list LabeledValueProps)
    (formattedErrorDatum : option LabeledValueProps) :
  foldl forEachDatum (formattedData, formattedErrorDatum) data =
  (formattedData ++ omap valueElementOf data,
   from_option Some formattedErrorDatum (last (omap errorElementOf data))).
Proof.
  revert formattedData formattedErrorDatum.
  induction data as [|datum data IH]; intros fd fe.
  { cbn. by rewrite app_nil_r. }
  change (foldl forEachDatum (fd, fe) (datum :: data)) with
    (foldl forEachDatum (forEachDatum (fd, fe) datum) data).
  rewrite forEachDatum_spec, IH. cbn [omap list_omap].
  destruct (valueElementOf datum), (errorElementOf datum); cbn [option_list from_option];
    rewrite ?app_nil_r, <- ?app_assoc, ?last_cons;
    by destruct (last (omap errorElementOf data)).
Qed.

Lemma formattedDataOf_spec (data : list HoverPoint) :
  formattedDataOf data =
  omap valueElementOf data ++ option_list (last (omap errorElementOf data)).
Proof.
  unfold formattedDataOf. rewrite forEach_fold. cbn [app].
  destruct (last (omap errorElementOf data)); cbn; [done|by rewrite app_nil_r].
Qed.

Lemma valueElementOf_label (datum : HoverPoint) (p : LabeledValueProps) :
  valueElementOf datum = Some p -> label p <> "Forecast Error".
Proof.
  unfold valueElementOf. destruct (_y datum); [|done].
  destruct (JsString.includes (childName datum) "Error") eqn:He; [done|].
  intros [= <-]. cbn. intros E. by rewrite E in He.
Qed.

Lemma errorElementOf_Some (datum : HoverPoint) (p : LabeledValueProps) :
  errorElementOf datum = Some p ->
  _y datum <> None /\ JsString.includes (childName datum) "Error" = true /\
  p = {| label := "Forecast Error"; value := amount datum;
         type := None; className := Some "text-danger" |}.
Proof.
  unfold errorElementOf. destruct (_y datum); [|done].
  destruct (JsString.includes (childName datum) "Error"); [|done].
  by intros [= <-].
Qed.

Lemma last_omap {A B} (f : A -> option B) (l : list A) (y : B) :
  last (omap f l) = Some y ->
  exists l1 a l2,
    l = l1 ++ a :: l2 /\ f a = Some y /\ Forall (fun a' => f a' = None) l2.
Proof.
  induction l as [|a l IH] using rev_ind; [done|].
  rewrite omap_app. cbn [omap list_omap].
  destruct (f a) as [y'|] eqn:Hfa.
  - rewrite last_snoc. intros [= ->]. by exists l, a, [].
  - rewrite app_nil_r. intros (l1 & a' & l2 & -> & Hfa' & Hnone)%IH.
    exists l1, a', (l2 ++ [a]). rewrite <- app_assoc. repeat split; [done..|].
    apply Forall_app. split; [done|]. by apply Forall_singleton.
Qed.

(** C3 (as amended). The hover points [Error-Area-0] (value 16.1, amount
    -2.3) and [1-Day] (value 18.4) are displayed as [1-Day: 18.4°C] followed
    by [Forecast Error: -2.3°C]. A point whose value is [null] is dropped, a
    point of an error series as well. For every input that holds a point of
    an error series with a value, whatever its order, the display is the
    points of the other series that have a value, in their order, followed by
    one [Forecast Error] entry, which carries the amount of the last such
    point of the input. *)
Theorem forecast_error_entry_is_last (data : list HoverPoint) (e : HoverPoint) :
  e ∈ data ->
  _y e <> None ->
  JsString.includes (childName e) "Error" = true ->
  displaySequence [Sample.errorPoint; Sample.linePoint] =
    ["1-Day: 18.4°C"; "Forecast Error: -2.3°C"] /\
  exists before e' after,
    data = before ++ e' :: after /\
    _y e' <> None /\
    JsString.includes (childName e') "Error" = true /\
    Forall (fun datum => errorElementOf datum = None) after /\
    ActiveDataDisplay data =
      Some (omap valueElementOf data ++
            [{| label := "Forecast Error"; value := amount e';
                type := None; className := Some "text-danger" |}]) /\
    Forall (fun p => label p <> "Forecast Error") (omap valueElementOf data).
Proof.
  intros Hin Hy He. split; [by vm_compute|].
  destruct (last (omap errorElementOf data)) as [p|] eqn:Hlast.
  - destruct (last_omap _ _ _ Hlast) as (before & e' & after & Hdata & Hp & Hnone).
    apply errorElementOf_Some in Hp as (Hy' & He' & ->).
    exists before, e', after. repeat split; try done.
    + unfold ActiveDataDisplay. rewrite formattedDataOf_spec, Hlast.
      rewrite Hdata at 1. by destruct before.
    + apply Forall_forall. intros p (datum & _ & Hp)%list_elem_of_omap.
      by apply (valueElementOf_label datum).
  - apply last_None in Hlast.
    assert (Hsome : is_Some (errorElementOf e)).
    { unfold errorElementOf. destruct (_y e); [|done]. by rewrite He. }
    destruct Hsome as [p Hp].
    assert (p ∈ omap errorElementOf data) as Hin'
      by (apply list_elem_of_omap; eauto).
    rewrite Hlast in Hin'. by apply not_elem_of_nil in Hin'.
Qed.

(** An input with the error point in the middle and a second error point
    without a value after it. *)
Lemma forecast_error_entry_is_last_sample :
  displaySequence [Sample.errorPoint; Sample.linePoint] =
    ["1-Day: 18.4°C"; "Forecast Error: -2.3°C"] /\
  exists before e' after,
    [Sample.linePoint; Sample.errorPoint; Sample.errorPointNoValue]
      = before ++ e' :: after /\
    _y e' <> None /\
    JsString.includes (childName e') "Error" = true /\
    Forall (fun datum => errorElementOf datum = None) after /\
    ActiveDataDisplay [Sample.linePoint; Sample.errorPoint; Sample.errorPointNoValue] =
      Some (omap valueElementOf
              [Sample.linePoint; Sample.errorPoint; Sample.errorPointNoValue] ++
            [{| label := "Forecast Error"; value := amount e';
                type := None; className := Some "text-danger" |}]) /\
    Forall (fun p => label p <> "Forecast Error")
           (omap valueElementOf
              [Sample.linePoint; Sample.errorPoint; Sample.errorPointNoValue]).
Proof.
  apply (forecast_error_entry_is_last
           [Sample.linePoint; Sample.errorPoint; Sample.errorPointNoValue]
           Sample.errorPoint).
  - apply list_elem_of_further, list_elem_of_here.
  - discriminate.
  - reflexivity.
Defined.

(** C3, on the code. For the input of the claim the error point has the
    value [null], so it is dropped with its amount: the display is the line
    [1-Day: 18.4°C] alone. *)
Lemma error_point_without_value_is_dropped :
  displaySequence [Sample.errorPointNoValue; Sample.linePoint] = ["1-Day: 18.4°C"] /\
  displaySequence [Sample.errorPointNoValue; Sample.linePoint] <>
    ["1-Day: 18.4°C"; "Forecast Error: -2.3°C"] /\
  displaySequence [Sample.errorPointNoValue] = [].
Proof. vm_compute. repeat split; discriminate || reflexivity. Qed.

(** ** The format of a labeled value *)

(** [Math.round] takes the integer at a distance of one half at most, and
    the upper one of two such integers. *)
Lemma nearestInteger_spec (q : Q) :
  (inject_Z (JsNumber.nearestInteger q) - (1 # 2) <= q)%Q /\
  (q < inject_Z (JsNumber.nearestInteger q) + (1 # 2))%Q.
Proof.
  unfold JsNumber.nearestInteger.
  pose proof (Qfloor_le (q + (1 # 2))) as Hle.
  pose proof (Qlt_floor (q + (1 # 2))) as Hlt.
  rewrite inject_Z_plus in Hlt. change (inject_Z 1) with 1%Q in Hlt.
  generalize dependent (inject_Z (Qfloor (q + (1 # 2)))). intros n Hle Hlt.
  split; lra.
Qed.

(** On a number that is not integral, [Math.round] gives the integer
    nearest to its exact value, or a zero of its sign. *)
Lemma Math_round_nearest (v : float) (sign : bool) (m : positive) (e : Z) :
  Prim2SF v = S754_finite sign m e ->
  (e < 0)%Z ->
  let q := if sign then (- JsNumber.exact m e)%Q else JsNumber.exact m e in
  exists n : Z,
    (inject_Z n - (1 # 2) <= q)%Q /\ (q < inject_Z n + (1 # 2))%Q /\
    JsNumber.Math_round v =
      (if (n =? 0)%Z then (if sign then neg_zero else zero) else JsNumber.ofZ n).
Proof.
  intros Hv He q. exists (JsNumber.nearestInteger q).
  destruct (nearestInteger_spec q) as [Hlo Hhi]. repeat split; [done..|].
  unfold JsNumber.Math_round. rewrite Hv.
  by rewrite (proj2 (Z.leb_gt 0 e) He).
Qed.

(** C9 (as amended). The kind of a value is its declared type when one is
    given and not empty, and its label otherwise, letter case apart; a value
    of the kind [accuracy] is shown as a hundred times the value followed by
    [%], any other value as it is followed by [°C]. The number shown is
    rounded to one decimal place: it is the quotient by ten of a number [r],
    and when ten times the number to show is finite and not integral, [r] is
    the one integer at a distance of one half at most from it, the upper one
    of two such integers (a zero keeps the sign); a product that is integral,
    infinite or NaN is its own [r]. The value 0.873 labelled [accuracy] is
    shown as [87.3%] and the value 18.44 labelled [temperature] as [18.4°C];
    18.49 is shown as [18.5°C], -2.36 as [-2.4°C], the tie -2.35 as
    [-2.3°C], and 0.8736 labelled [accuracy] as [87.4%]. *)
Theorem labeled_value_rounds_to_one_decimal (p : LabeledValueProps) :
  let valueType := JsString.toLowerCase (typeOrLabel (type p) (label p)) in
  let percent := bool_decide (valueType = "accuracy") in
  let shown := (if percent then toNumber (value p) * 100.0
                else toNumber (value p))%float in
  (exists r : float,
     formattedValue (LabeledValue p) =
       JsNumber.toString (r / 10)%float +:+ (if percent then "%" else "°C") /\
     match Prim2SF (shown * 10)%float with
     | S754_finite sign m e =>
         if (e <? 0)%Z then
           let q := if sign then (- JsNumber.exact m e)%Q else JsNumber.exact m e in
           exists n : Z,
             (inject_Z n - (1 # 2) <= q)%Q /\ (q < inject_Z n + (1 # 2))%Q /\
             r = (if (n =? 0)%Z then (if sign then neg_zero else zero)
                  else JsNumber.ofZ n)
         else r = (shown * 10)%float
     | _ => r = (shown * 10)%float
     end) /\
  typeOrLabel None (label p) = label p /\
  typeOrLabel (Some "") (label p) = label p /\
  (let shows l v :=
     formattedValue (LabeledValue {| label := l; value := Some v;
                                     type := None; className := None |}) in
   shows "accuracy" 0.873%float = "87.3%" /\
   shows "temperature" 18.44%float = "18.4°C" /\
   shows "temperature" 18.49%float = "18.5°C" /\
   shows "temperature" (-2.36)%float = "-2.4°C" /\
   shows "temperature" (-2.35)%float = "-2.3°C" /\
   shows "accuracy" 0.8736%float = "87.4%").
Proof.
  cbn zeta. split; [|by vm_compute].
  set (percent := bool_decide _).
  set (shown := if percent then (toNumber (value p) * 100.0)%float
                else toNumber (value p)).
  exists (JsNumber.Math_round (shown * 10)). split.
  - unfold LabeledValue, formatForDisplay. cbn [formattedValue].
    fold percent. unfold shown. by destruct percent.
  - destruct (Prim2SF (shown * 10)) as [s| | |sign m e] eqn:Hv;
      try (unfold JsNumber.Math_round; by rewrite Hv).
    destruct (e <? 0)%Z eqn:He.
    + apply Z.ltb_lt in He. exact (Math_round_nearest _ _ _ _ Hv He).
    + apply Z.ltb_ge in He. unfold JsNumber.Math_round. rewrite Hv.
      by rewrite (proj2 (Z.leb_le 0 e) He).
Qed.

(** C9, on the code. A declared type takes the place of the label: the
    value 0.873 labelled [accuracy] with the declared type [bias] is shown in
    degrees. The comparison ignores letter case: labelled [Accuracy], and
    with no declared type, the value is shown as a percentage. *)
Lemma declared_type_takes_place_of_label :
  formattedValue
    (LabeledValue {| label := "accuracy"; value := Some 0.873%float;
                     type := Some "bias"; className := None |}) = "0.9°C" /\
  formattedValue
    (LabeledValue {| label := "Accuracy"; value := Some 0.873%float;
                     type := None; className := None |}) = "87.3%".
Proof. by vm_compute. Qed.

(** The texts of some labels and numbers. *)
Example title_case_samples :
  TitleCase.toTitleCase <$> ["accuracy"; "1-Day"; "Forecast Error"; "wind_speed"; "NASA data"]
  = ["Accuracy"; "1-Day"; "Forecast Error"; "Wind Speed"; "Nasa Data"].
Proof. by vm_compute. Qed.

Example number_samples :
  JsNumber.toString <$>
    [18.4; -2.3; 100; 0.5; 1e21; 1e-7; 0.1 + 0.2; JsNumber.Math_round 2.5;
     JsNumber.Math_round (-2.5); JsNumber.Math_round (-0.2); 0 / 0]%float
  = ["18.4"; "-2.3"; "100"; "0.5"; "1e+21"; "1e-7"; "0.30000000000000004"; "3";
     "-2"; "0"; "NaN"].
Proof. by vm_compute. Qed.

Example iso_date_samples :
  IsoDate.valueOf <$>
    ["1970-01-01T00:00:00Z"; "2019-03-01T00:00:00Z"; "2020-02-29T23:59:59Z";
     "2019-02-29T00:00:00Z"]
  = [Some 0%Z; Some 1551398400000%Z; Some 1583020799000%Z; None].
Proof. by vm_compute. Qed.

(** * Further properties *)

(** ** Error areas: maximal runs, invalid dates, the areas charted *)

Lemma joinable_head (r1 r2 r2' : list Errea.datum) :
  head r2 = head r2' -> joinable r1 r2 = joinable r1 r2'.
Proof. unfold joinable. by intros ->. Qed.

Lemma separated_snoc (erreas : list (list Errea.datum)) (r1 r2 : list Errea.datum) :
  separated ((erreas ++ [r1]) ++ [r2]) =
  separated (erreas ++ [r1]) && negb (joinable r1 r2).
Proof.
  induction erreas as [|r erreas IH]; [cbn; by rewrite andb_true_r|].
  destruct erreas as [|r' erreas];
    [cbn; by destruct (joinable r r1), (joinable r1 r2)|].
  change (separated (((r :: r' :: erreas) ++ [r1]) ++ [r2])) with
    (negb (joinable r r') && separated (((r' :: erreas) ++ [r1]) ++ [r2])).
  change (separated ((r :: r' :: erreas) ++ [r1])) with
    (negb (joinable r r') && separated ((r' :: erreas) ++ [r1])).
  rewrite IH. by rewrite andb_assoc.
Qed.

Lemma separated_last_grows (erreas : list (list Errea.datum))
    (r : list Errea.datum) (p d : Errea.datum) :
  separated (erreas ++ [(r ++ [p]) ++ [d]]) = separated (erreas ++ [r ++ [p]]).
Proof.
  destruct erreas as [|r0 erreas _] using rev_ind; [done|].
  rewrite !separated_snoc. f_equal. f_equal. apply joinable_head.
  by destruct r.
Qed.

Lemma hourlySteps_all_valid (ts : list (option Z)) :
  hourlySteps ts = true -> 2 <= length ts -> Forall is_Some ts.
Proof.
  induction ts as [|a ts IH]; [cbn; lia|].
  destruct ts as [|b ts]; [cbn; lia|]. intros H _.
  change (hourBefore a b && hourlySteps (b :: ts) = true) in H.
  apply andb_prop in H as [Hab Hrest].
  apply hourBefore_spec in Hab as (t & -> & ->).
  constructor; [done|]. destruct ts as [|c ts]; [by repeat constructor|].
  apply IH; [done|cbn; lia].
Qed.

Section ErrorAreaRuns.

Variable dateValue : string -> option Z.
Variable analysis : VariableAnalysis.
Variable ld : LeadDayAnalysis.

Let datumOf := erreaDatumOf dateValue analysis ld.
Let reducer := erreaReducer dateValue analysis ld.

Lemma regions_separated (es : list (string * float)) :
  exists erreas,
    reduce reducer es [] = Ok erreas /\
    Forall (fun errea => errea <> []) erreas /\
    separated erreas = true.
Proof.
  induction es as [|entry es IH] using rev_ind.
  { exists []. by repeat split. }
  destruct IH as (erreas & Hred & Hne & Hsep).
  rewrite reduce_snoc, Hred. cbn [bindR].
  destruct erreas as [|errea erreas _] using rev_ind.
  - exists [[datumOf entry]]. split; [apply reducer_first|]. split; [|done].
    by repeat constructor.
  - destruct (proj1 (Forall_app _ erreas [errea]) Hne) as [Hne' Hlast].
    clear Hne. rename Hne' into Hne.
    apply (proj1 (Forall_singleton _ errea)) in Hlast.
    destruct errea as [|p errea _] using rev_ind; [done|]. clear Hlast.
    unfold reducer. rewrite (reducer_next dateValue analysis ld).
    destruct (hourBefore (Errea.x p) (dateValue entry.1)) eqn:Hhour;
      eexists; (split; [done|]); split.
    + apply Forall_app. split; [done|]. apply Forall_singleton.
      by destruct errea.
    + by rewrite separated_last_grows.
    + apply Forall_app. split; [|by repeat constructor].
      apply Forall_app. split; [done|]. apply Forall_singleton.
      by destruct errea.
    + rewrite separated_snoc, Hsep. cbn [andb]. unfold joinable.
      rewrite last_snoc. cbn [head].
      fold datumOf. unfold datumOf. rewrite (datum_time dateValue analysis ld).
      by rewrite Hhour.
Qed.

(** X1. The regions are maximal: of two regions that follow each other,
    the second never starts exactly one hour after the end of the first. *)
Theorem regions_are_maximal_runs :
  exists erreas,
    erreaRegions dateValue analysis ld = Ok erreas /\
    forall (i : nat) (r1 r2 : list Errea.datum) (p q : Errea.datum),
      erreas !! i = Some r1 -> erreas !! S i = Some r2 ->
      last r1 = Some p -> head r2 = Some q ->
      hourBefore (Errea.x p) (Errea.x q) = false.
Proof.
  destruct (regions_separated (errors ld)) as (erreas & Hred & _ & Hsep).
  exists erreas. split; [done|]. clear Hred.
  intros i. revert erreas Hsep.
  induction i as [|i IH]; intros erreas Hsep r1 r2 p q H1 H2 Hp Hq.
  - destruct erreas as [|r1' [|r2' erreas]]; try done.
    cbn in H1, H2. simplify_eq.
    change (negb (joinable r1 r2) && separated (r2 :: erreas) = true) in Hsep.
    apply andb_prop in Hsep as [Hj _]. apply negb_true_iff in Hj.
    unfold joinable in Hj. by rewrite Hp, Hq in Hj.
  - destruct erreas as [|r0 [|r0' erreas]]; try done.
    change (negb (joinable r0 r0') && separated (r0' :: erreas) = true) in Hsep.
    apply andb_prop in Hsep as [_ Hsep].
    by apply (IH (r0' :: erreas) Hsep r1 r2 p q).
Qed.

(** X2. An entry whose key is not a valid date makes a region of its own:
    a region that holds a point with an invalid time holds this point
    alone. *)
Theorem invalid_date_point_is_alone :
  exists erreas,
    erreaRegions dateValue analysis ld = Ok erreas /\
    forall (errea : list Errea.datum) (p : Errea.datum),
      errea ∈ erreas -> p ∈ errea -> Errea.x p = None -> errea = [p].
Proof.
  destruct (regions_built dateValue analysis ld (errors ld))
    as (erreas & Hred & _ & Hall & _).
  exists erreas. split; [done|]. intros errea p Hin Hp Hx.
  rewrite Forall_forall in Hall. destruct (Hall _ Hin) as [_ Hsteps].
  destruct errea as [|p1 [|p2 errea]].
  - by apply not_elem_of_nil in Hp.
  - by apply list_elem_of_singleton in Hp as ->.
  - apply hourlySteps_all_valid in Hsteps; [|cbn; lia].
    rewrite Forall_forall in Hsteps.
    destruct (Hsteps (Errea.x p)) as [t Ht]; [by apply list_elem_of_fmap_2|].
    congruence.
Qed.

(** X3. When the errors object is not empty and enumerates its entries at
    one-hour steps, the builder gives one region, which holds the points of
    all the entries: its length is the size of the errors object. *)
Theorem hourly_errors_give_one_region_of_all_points :
  errors ld <> [] ->
  hourlySteps (timesOf dateValue (errors ld)) = true ->
  erreaRegions dateValue analysis ld =
    Ok [erreaDatumOf dateValue analysis ld <$> errors ld] /\
  mapR (fun erreas => length <$> erreas) (erreaRegions dateValue analysis ld) =
    Ok [length (errors ld)].
Proof.
  intros Hne Hhour.
  destruct (regions_built dateValue analysis ld (errors ld))
    as (erreas & Hred & Hcat & _ & Hlen).
  unfold erreaRegions. rewrite Hred.
  assert (erreas = [datumOf <$> errors ld]) as ->.
  { fold datumOf in Hcat.
    rewrite hourlySteps_no_gap in Hhour. apply bool_decide_eq_true in Hhour.
    unfold timesOf, Object_keys in Hhour. unfold regionCount in Hlen.
    destruct (errors ld) as [|entry es] eqn:He; [done|].
    change (dateValue <$> (entry :: es).*1) with
      (dateValue entry.1 :: (dateValue <$> es.*1)) in Hlen.
    cbn iota in Hlen.
    change (dateValue entry.1 :: (dateValue <$> es.*1)) with
      (dateValue <$> (entry :: es).*1) in Hlen.
    rewrite Hhour in Hlen.
    destruct erreas as [|errea [|errea' erreas]]; try done.
    cbn in Hcat. rewrite app_nil_r in Hcat. by rewrite Hcat. }
  split; [done|]. cbn. by rewrite length_fmap.
Qed.

End ErrorAreaRuns.

(** ** Lookups in the payload *)

Lemma Object_get_is_Some {V} (o : JsObject V) (k : string) :
  is_Some (Object_get o k) <-> k ∈ Object_keys o.
Proof.
  unfold Object_keys. induction o as [|[k' v] o IH]; cbn.
  - split; [by intros [? ?]|by intros ?%not_elem_of_nil].
  - destruct (decide (k' = k)) as [->|Hne].
    + split; [intros _; apply list_elem_of_here|by eexists].
    + rewrite IH. split; [apply list_elem_of_further|].
      intros [?|?]%elem_of_cons; [congruence|done].
Qed.

Lemma Object_get_entry {V} (o : JsObject V) (k : string) (v : V) :
  NoDup (Object_keys o) -> (k, v) ∈ o -> Object_get o k = Some v.
Proof.
  unfold Object_keys. induction o as [|[k' v'] o IH]; cbn; intros Hnd Hin.
  - by apply not_elem_of_nil in Hin.
  - apply NoDup_cons in Hnd as [Hk' Hnd].
    apply elem_of_cons in Hin as [[= -> ->]|Hin].
    + by rewrite decide_True.
    + destruct (decide (k' = k)) as [->|Hne]; [|by apply IH].
      destruct Hk'. apply list_elem_of_fmap. by exists (k, v).
Qed.

Lemma string_length_append (s1 s2 : string) :
  String.length (s1 +:+ s2) = String.length s1 + String.length s2.
Proof.
  induction s1 as [|c s1 IH]; [done|].
  change (S (String.length (s1 +:+ s2)) = S (String.length s1 + String.length s2)).
  by rewrite IH.
Qed.

Lemma append_inj_r (s1 s2 t : string) : s1 +:+ t = s2 +:+ t -> s1 = s2.
Proof.
  revert s2. induction s1 as [|c s1 IH]; intros [|c' s2] H; [done|..].
  - apply (f_equal String.length) in H.
    change ("" +:+ t) with t in H.
    rewrite string_length_append in H. cbn in H. lia.
  - apply (f_equal String.length) in H.
    change ("" +:+ t) with t in H.
    rewrite string_length_append in H. cbn in H. lia.
  - change (String c (s1 +:+ t) = String c' (s2 +:+ t)) in H.
    injection H as -> H. f_equal. by apply IH.
Qed.

(** ** Forecast lines *)

Lemma fcastLinesFrom_keys (analysis : VariableAnalysis) (ks : list string) (i : nat) :
  Forall (fun k => is_Some (Object_get (lead_days analysis) k)) ks ->
  fcastLinesFrom analysis i (DayKey <$> ks) =
  Ok (imap (fun j k => lineOf (i + j) k) ks).
Proof.
  revert i. induction ks as [|k ks IH]; intros i Hks; [done|].
  apply Forall_cons in Hks as [[ld Hk] Hks].
  cbn [fmap list_fmap fcastLinesFrom dayString]. rewrite Hk.
  rewrite (IH (S i) Hks). cbn [bindR imap]. do 2 f_equal.
  - unfold lineOf. by rewrite Nat.add_0_r.
  - apply imap_ext. intros j k' _. cbn. f_equal. lia.
Qed.

Lemma displayedFcastLines_cumulative (analysis : VariableAnalysis)
    (activeDay : ActiveDay) :
  truthy activeDay = false ->
  displayedFcastLines analysis activeDay =
  Ok (imap lineOf (Object_keys (lead_days analysis))).
Proof.
  intros Hc. unfold displayedFcastLines, activeFcasts. rewrite Hc.
  rewrite fcastLinesFrom_keys; [done|].
  apply Forall_forall. intros k Hk. by apply Object_get_is_Some.
Qed.

Lemma displayedFcastLines_isolated (analysis : VariableAnalysis) (d : string) :
  truthy (DayKey d) = true ->
  displayedFcastLines analysis (DayKey d) =
  match Object_get (lead_days analysis) d with
  | Some _ => Ok [lineOf 0 d]
  | None => TypeError
  end.
Proof.
  intros Hc. unfold displayedFcastLines, activeFcasts. rewrite Hc.
  cbn [fcastLinesFrom dayString]. by destruct (Object_get _ d).
Qed.

Lemma find_line (ks : list string) (f : nat -> float) (i : nat) (k : string) :
  NoDup ks -> ks !! i = Some k ->
  find (fun child => bool_decide (lineName child = k +:+ "-Day"))
       (imap (fun j k' => {| lineName := k' +:+ "-Day"; lineOpacity := f j |}) ks)
  = Some {| lineName := k +:+ "-Day"; lineOpacity := f i |}.
Proof.
  revert f i. induction ks as [|k0 ks IH]; intros f i Hnd Hi; [done|].
  apply NoDup_cons in Hnd as [Hk0 Hnd]. cbn [imap find lineName].
  destruct i as [|i].
  - injection Hi as ->. by rewrite bool_decide_eq_true_2.
  - cbn in Hi. rewrite bool_decide_eq_false_2.
    + exact (IH (f ∘ S) i Hnd Hi).
    + intros ->%append_inj_r. apply Hk0. by eapply list_elem_of_lookup_2.
Qed.

(** X4. The first line of the forecast group is opaque; from the second on
    the lines fade, each one strictly more transparent than the one before,
    down to the tenth, which is fully transparent; the eleventh has a
    negative opacity. *)
Theorem line_opacities_fade (i : nat) :
  1 <= i <= 9 ->
  opacityAt 0 = 1%float /\
  PrimFloat.ltb (opacityAt i) (opacityAt (i - 1)) = true /\
  PrimFloat.leb 0 (opacityAt i) = true /\
  opacityAt 9 = 0%float /\
  PrimFloat.ltb (opacityAt 10) 0 = true.
Proof.
  intros [H1 H9].
  do 10 (destruct i as [|i]; [try lia; by vm_compute|]). lia.
Qed.

Lemma line_opacities_fade_third : 
  opacityAt 0 = 1%float /\
  PrimFloat.ltb (opacityAt 2) (opacityAt 1) = true /\
  PrimFloat.leb 0 (opacityAt 2) = true /\
  opacityAt 9 = 0%float /\
  PrimFloat.ltb (opacityAt 10) 0 = true.
Proof. apply (line_opacities_fade 2). lia. Defined.

(** ** The legend *)

Lemma regions_none_iff (dateValue : string -> option Z)
    (analysis : VariableAnalysis) (ld : LeadDayAnalysis) :
  exists erreas,
    erreaRegions dateValue analysis ld = Ok erreas /\
    bool_decide (length erreas = 0) = bool_decide (errors ld = []).
Proof.
  destruct (regions_built dateValue analysis ld (errors ld))
    as (erreas & Hred & _ & _ & Hlen).
  exists erreas. split; [done|]. rewrite Hlen. apply bool_decide_ext.
  by destruct (errors ld).
Qed.

Lemma areas_data (name : nat -> string) (erreas : list (list Errea.datum)) :
  map Errea.data
      (imap (fun i errea => {| Errea.name := name i; Errea.data := errea |}) erreas)
  = erreas.
Proof.
  revert name. induction erreas as [|errea erreas IH]; intros name; [done|].
  cbn. f_equal. exact (IH (name ∘ S)).
Qed.

Lemma displayedErrea_isolated (dateValue : string -> option Z)
    (analysis : VariableAnalysis) (d : string) (ld : LeadDayAnalysis) :
  truthy (DayKey d) = true ->
  Object_get (lead_days analysis) d = Some ld ->
  exists areas,
    displayedErrea dateValue analysis (DayKey d) = Ok areas /\
    mapR (map Errea.data) (Ok areas) = erreaRegions dateValue analysis ld /\
    bool_decide (length areas = 0) = bool_decide (errors ld = []).
Proof.
  intros Hc Hld. unfold displayedErrea. rewrite Hc, Hld.
  destruct (regions_none_iff dateValue analysis ld) as (erreas & Hred & Hlen).
  rewrite Hred. cbn [bindR]. eexists. split; [done|]. split.
  - cbn. f_equal. apply (areas_data (fun i => "Error-Area-" +:+ pretty i)).
  - by rewrite length_imap.
Qed.

(** X5. With a lead day of the payload isolated, the legend lists every
    lead day, then [Actual] and [Error]; the entry of the isolated day is
    opaque, the entries of the other lead days are dimmed (symbol 0.1, label
    0.2), and the entry [Error] is dimmed (0.2) exactly when the isolated
    day has no error to chart. *)
Theorem legend_with_a_day_isolated (theme : LineStyle)
    (dateValue : string -> option Z) (analysis : VariableAnalysis)
    (d : string) (ld : LeadDayAnalysis) :
  truthy (DayKey d) = true ->
  Object_get (lead_days analysis) d = Some ld ->
  legendData theme dateValue analysis (DayKey d) =
  Ok (((fun k =>
          {| entryName := k +:+ "-Day";
             symbolOpacity := if decide (k = d) then 1%float else 0.1%float;
             symbolFill := "red"; symbolType := None;
             labelsOpacity := if decide (k = d) then 1%float else 0.2%float |})
         <$> Object_keys (lead_days analysis))
      ++ [groupEntry "Actual" theme true;
          {| entryName := "Error";
             symbolOpacity :=
               if bool_decide (errors ld = []) then 0.2%float else 0.4%float;
             symbolFill := "magenta"; symbolType := Some "square";
             labelsOpacity :=
               if bool_decide (errors ld = []) then 0.2%float else 1%float |}]).
Proof.
  intros Hc Hld. unfold legendData.
  rewrite displayedFcastLines_isolated, Hld by done. cbn [bindR].
  destruct (displayedErrea_isolated dateValue analysis d ld Hc Hld)
    as (areas & Hareas & _ & Hnone).
  rewrite Hareas. cbn [bindR]. rewrite Hnone. do 2 f_equal.
  - apply list_fmap_ext. intros _ k _. unfold dayEntry. cbn [find lineOf lineName].
    destruct (decide (k = d)) as [->|Hne].
    + by rewrite bool_decide_eq_true_2.
    + rewrite bool_decide_eq_false_2; [done|].
      intros Heq%append_inj_r. congruence.
  - unfold groupEntry, errorStyle. cbn.
    by destruct (bool_decide (errors ld = [])).
Qed.

(** X6. With no day isolated, and the keys of the lead days distinct as
    the keys of an object are, the legend entry of each lead day has the
    opacity of the line of that day, which fades with the position of the
    day, and an opaque label; the entry [Error] is dimmed, for no error
    area is charted. *)
Theorem legend_with_no_day_isolated (theme : LineStyle)
    (dateValue : string -> option Z) (analysis : VariableAnalysis)
    (activeDay : ActiveDay) :
  truthy activeDay = false ->
  NoDup (Object_keys (lead_days analysis)) ->
  displayedErrea dateValue analysis activeDay = Ok [] /\
  legendData theme dateValue analysis activeDay =
  Ok (imap (fun i k =>
              {| entryName := k +:+ "-Day"; symbolOpacity := opacityAt i;
                 symbolFill := "red"; symbolType := None;
                 labelsOpacity := 1%float |})
           (Object_keys (lead_days analysis))
      ++ [groupEntry "Actual" theme true;
          {| entryName := "Error"; symbolOpacity := 0.2%float;
             symbolFill := "magenta"; symbolType := Some "square";
             labelsOpacity := 0.2%float |}]).
Proof.
  intros Hc Hnd.
  assert (He : displayedErrea dateValue analysis activeDay = Ok []).
  { unfold displayedErrea. by rewrite Hc. }
  split; [done|]. unfold legendData.
  rewrite displayedFcastLines_cumulative, He by done. cbn [bindR].
  do 2 f_equal. apply list_eq. intros i.
  rewrite list_lookup_fmap, list_lookup_imap.
  destruct (Object_keys (lead_days analysis) !! i) as [k|] eqn:Hk; [|done].
  cbn. f_equal. unfold dayEntry, lineOf.
  by rewrite (find_line _ opacityAt i k Hnd Hk).
Qed.

(** ** The states the chart reaches *)

Section Reachable.

Variable analysis : VariableAnalysis.

Let keys : list string := Object_keys (lead_days analysis).

Lemma first_of_keys :
  (first (DayKey <$> keys) = DayUndefined /\ keys = []) \/
  exists k, first (DayKey <$> keys) = DayKey k /\ k ∈ keys.
Proof.
  destruct keys as [|k ks]; [by left|]. right. exists k.
  split; [done|apply list_elem_of_here].
Qed.

Lemma newActiveDayOf_range (activeDay : ActiveDay) (labelName : string) :
  newActiveDayOf analysis activeDay labelName = DayFalse \/
  settled analysis (newActiveDayOf analysis activeDay labelName).
Proof.
  unfold newActiveDayOf, settled. fold keys.
  set (day := first (DayKey <$> JsString.split labelName "-Day")).
  assert (Hday : Array_includes (DayKey <$> keys) day = true ->
                 exists k, day = DayKey k /\ k ∈ keys).
  { unfold Array_includes. intros H%bool_decide_eq_true.
    apply list_elem_of_fmap in H as (k & -> & Hk). by exists k. }
  destruct (truthy activeDay) eqn:Hc; cbn [negb].
  - destruct (bool_decide (labelName = "Actual") || _); [by right; left|].
    destruct (Array_includes (DayKey <$> keys) day); [|by left].
    right. right. right. by apply Hday.
  - destruct (JsString.includes labelName "Error").
    + right. right. unfold activeFcasts. rewrite Hc. fold keys.
      destruct first_of_keys as [?|?]; [by left|by right].
    + destruct (Array_includes (DayKey <$> keys) day); [|by left].
      right. right. right. by apply Hday.
Qed.

Lemma chartStep_settled (st : ChartState) (ev : ChartEvent) :
  settled analysis (activeFcastDay st) ->
  settled analysis (activeFcastDay (chartStep analysis st ev)).
Proof.
  intros Hst. destruct ev as [labelName|points]; [|done].
  cbn [chartStep]. rewrite activeDay_after_click. cbn zeta.
  destruct (newActiveDayOf_range (activeFcastDay st) labelName) as [->|H];
    [done|].
  by destruct (decide _) as [_|_].
Qed.

Lemma chartRun_settled (evs : list ChartEvent) :
  settled analysis (activeFcastDay (chartRun analysis evs)).
Proof.
  unfold chartRun. induction evs as [|ev evs IH] using rev_ind.
  - by left.
  - rewrite foldl_snoc. by apply chartStep_settled.
Qed.

Lemma settled_lookup (a : ActiveDay) :
  settled analysis a ->
  truthy a = false \/
  exists k ld, a = DayKey k /\ truthy a = true /\
               Object_get (lead_days analysis) k = Some ld.
Proof.
  intros [->|[[-> _]|(k & -> & Hk)]]; [by left..|].
  destruct (truthy (DayKey k)) eqn:Hc; [|by left]. right.
  apply Object_get_is_Some in Hk as [ld Hld]. by exists k, ld.
Qed.

(** X7. Whatever legend entries are clicked and whatever points are
    hovered, from the state the chart is mounted with, the active day is
    never [false]: it is [null], or a lead day of the payload, or
    [undefined] when the payload has no lead day. *)
Theorem reachable_active_day (evs : list ChartEvent) :
  activeFcastDay (chartRun analysis evs) <> DayFalse /\
  (activeFcastDay (chartRun analysis evs) = DayNull \/
   (activeFcastDay (chartRun analysis evs) = DayUndefined /\
    Object_keys (lead_days analysis) = []) \/
   exists k, activeFcastDay (chartRun analysis evs) = DayKey k /\
             k ∈ Object_keys (lead_days analysis)).
Proof.
  pose proof (chartRun_settled evs) as H. split; [|exact H].
  by destruct H as [->|[[-> _]|(k & -> & _)]].
Qed.

End Reachable.

(** ** The statistics panel *)

Lemma statRow_elements (type : string) (props l : JsObject float) :
  NoDup (Object_keys props) ->
  (forall e, e ∈ l -> e ∈ props) ->
  omap id ((fun prop =>
              if JsString.includes type prop
              then Some {| label := type; value := Object_get props prop;
                           type := None; className := None |}
              else None) <$> Object_keys l) =
  omap (fun '(prop, v) =>
          if JsString.includes type prop
          then Some {| label := type; value := Some v;
                       type := None; className := None |}
          else None) l.
Proof.
  intros Hndp Hsub. induction l as [|[prop v] l IH]; [done|].
  unfold Object_keys in *. cbn [fmap list_fmap omap list_omap fst id].
  rewrite (Object_get_entry props prop v Hndp) by (apply Hsub, list_elem_of_here).
  rewrite <- IH by (intros e He; by apply Hsub, list_elem_of_further).
  by destruct (JsString.includes type prop).
Qed.

Lemma statRows_elements (stats l : StatsBlock) :
  NoDup (Object_keys stats) ->
  Forall (fun entry => NoDup (Object_keys entry.2)) stats ->
  (forall e, e ∈ l -> e ∈ stats) ->
  mapR (fun rows => omap id (concat rows))
       (mapResult (statRow stats) (Object_keys l)) =
  Ok (namedAfterType l).
Proof.
  intros Hnd Hprops Hsub. induction l as [|[type props] l IH]; [done|].
  assert (Hin : (type, props) ∈ stats) by apply Hsub, list_elem_of_here.
  assert (Hndp : NoDup (Object_keys props)).
  { rewrite Forall_forall in Hprops. by apply (Hprops _ Hin). }
  specialize (IH (fun e He => Hsub e (list_elem_of_further _ _ _ He))).
  unfold Object_keys in IH |- *. cbn [fmap list_fmap mapResult fst].
  unfold statRow at 1. rewrite (Object_get_entry stats type props Hnd Hin).
  cbn [bindR]. unfold mapR in IH |- *.
  destruct (mapResult (statRow stats) l.*1) as [rows|]; [|done].
  cbn [bindR] in IH |- *. injection IH as IH. f_equal.
  unfold namedAfterType in IH |- *. cbn [concat mbind list_bind].
  rewrite omap_app. f_equal; [|done].
  by apply statRow_elements.
Qed.

Lemma statElements_distinct (stats : StatsBlock) :
  NoDup (Object_keys stats) ->
  Forall (fun entry => NoDup (Object_keys entry.2)) stats ->
  statElements stats = Ok (namedAfterType stats).
Proof. intros Hnd Hprops. by apply statRows_elements. Qed.

(** X8. When the keys of a block of statistics and of each of its types
    are distinct, as the keys of objects are, the panel shows, under the
    heading [Forecast Accuracy: Cumulative] when no day is active and
    [Forecast Accuracy: d-Day] when the lead day [d] is, one element for each
    property whose name occurs in the name of its type, labelled with the
    type and carrying the value of the property, in the order of the block;
    the other properties are not shown. *)
Theorem stats_panel_shows_properties_named_after_their_type
    (analysis : VariableAnalysis) (d : string) (ld : LeadDayAnalysis) :
  isLeadDayKey d = true ->
  Object_get (lead_days analysis) d = Some ld ->
  NoDup (Object_keys (cumulative_stats analysis)) ->
  Forall (fun entry => NoDup (Object_keys entry.2)) (cumulative_stats analysis) ->
  NoDup (Object_keys (stats ld)) ->
  Forall (fun entry => NoDup (Object_keys entry.2)) (stats ld) ->
  ErrorStatsDisplay analysis DayNull =
    Ok ("Forecast Accuracy: Cumulative",
        namedAfterType (cumulative_stats analysis)) /\
  ErrorStatsDisplay analysis (DayKey d) =
    Ok ("Forecast Accuracy: " +:+ d +:+ "-Day", namedAfterType (stats ld)).
Proof.
  intros Hk Hld Hc1 Hc2 Hd1 Hd2. unfold ErrorStatsDisplay. split.
  - cbn [ErrorStatsDisplay_stats truthy negb bindR].
    by rewrite statElements_distinct.
  - unfold ErrorStatsDisplay_stats, activeDayDisplayText.
    rewrite (isLeadDayKey_truthy d Hk), Hld. cbn [negb bindR dayString].
    by rewrite statElements_distinct.
Qed.

(** ** What the chart renders in the states it reaches *)

Lemma mapResult_ok {A B} (f : A -> Result B) (xs : list A) :
  Forall (fun a => exists b, f a = Ok b) xs ->
  exists bs, mapResult f xs = Ok bs.
Proof.
  induction xs as [|a xs IH]; intros H; [by eexists|].
  apply Forall_cons in H as [[b Hb] Hxs]. destruct (IH Hxs) as [bs Hbs].
  cbn. rewrite Hb, Hbs. by eexists.
Qed.

Lemma statElements_ok (stats : StatsBlock) :
  exists elements, statElements stats = Ok elements.
Proof.
  unfold statElements.
  destruct (mapResult_ok (statRow stats) (Object_keys stats)) as [rows ->];
    [|by eexists].
  apply Forall_forall. intros type Htype.
  apply Object_get_is_Some in Htype as [props Hprops].
  unfold statRow. rewrite Hprops. by eexists.
Qed.

Section Rendering.

Variable theme : LineStyle.
Variable dateValue : string -> option Z.
Variable analysis : VariableAnalysis.

Lemma render_settled (a : ActiveDay) :
  settled analysis a ->
  exists panel lines areas entries,
    ErrorStatsDisplay analysis a = Ok panel /\
    displayedFcastLines analysis a = Ok lines /\
    displayedErrea dateValue analysis a = Ok areas /\
    legendData theme dateValue analysis a = Ok entries.
Proof.
  intros [Hc|(k & ld & -> & Hc & Hld)]%settled_lookup.
  - assert (exists panel, ErrorStatsDisplay analysis a = Ok panel) as [panel Hp].
    { unfold ErrorStatsDisplay, ErrorStatsDisplay_stats. rewrite Hc.
      cbn [negb bindR].
      destruct (statElements_ok (cumulative_stats analysis)) as [els ->].
      by eexists. }
    assert (He : displayedErrea dateValue analysis a = Ok []).
    { unfold displayedErrea. by rewrite Hc. }
    exists panel. do 3 eexists. split; [done|]. split.
    { by apply displayedFcastLines_cumulative. }
    split; [done|]. unfold legendData.
    by rewrite displayedFcastLines_cumulative, He.
  - assert (exists panel, ErrorStatsDisplay analysis (DayKey k) = Ok panel)
      as [panel Hp].
    { unfold ErrorStatsDisplay, ErrorStatsDisplay_stats. rewrite Hc, Hld.
      cbn [negb bindR].
      destruct (statElements_ok (stats ld)) as [els ->]. by eexists. }
    destruct (displayedErrea_isolated dateValue analysis k ld Hc Hld)
      as (areas & Hareas & _).
    exists panel. do 3 eexists. split; [done|]. split.
    { by rewrite displayedFcastLines_isolated, Hld. }
    split; [done|]. unfold legendData.
    by rewrite displayedFcastLines_isolated, Hld, Hareas.
Qed.

(** X9. In every state that the chart reaches by legend clicks and hover
    activations, the statistics panel, the forecast lines, the error areas
    and the legend are built without an error: no lookup of a lead day
    fails. *)
Theorem reachable_states_render (evs : list ChartEvent) :
  exists panel lines areas entries,
    ErrorStatsDisplay analysis (activeFcastDay (chartRun analysis evs)) = Ok panel /\
    displayedFcastLines analysis (activeFcastDay (chartRun analysis evs)) = Ok lines /\
    displayedErrea dateValue analysis (activeFcastDay (chartRun analysis evs))
      = Ok areas /\
    legendData theme dateValue analysis (activeFcastDay (chartRun analysis evs))
      = Ok entries.
Proof. apply render_settled, chartRun_settled. Qed.

(** X10. An active day that is a non-empty string and not a key of the
    lead days makes the chart throw: the forecast lines, the error areas, the
    legend and the statistics panel all fail on the lookup of the day. *)
Theorem unknown_active_day_throws (k : string) :
  k <> "" ->
  k ∉ Object_keys (lead_days analysis) ->
  displayedFcastLines analysis (DayKey k) = TypeError /\
  displayedErrea dateValue analysis (DayKey k) = TypeError /\
  legendData theme dateValue analysis (DayKey k) = TypeError /\
  ErrorStatsDisplay analysis (DayKey k) = TypeError.
Proof.
  intros Hne Hk.
  assert (Hc : truthy (DayKey k) = true).
  { cbn. by rewrite bool_decide_eq_false_2. }
  assert (Hget : Object_get (lead_days analysis) k = None).
  { apply eq_None_not_Some. by rewrite Object_get_is_Some. }
  repeat split.
  - by rewrite displayedFcastLines_isolated, Hget.
  - unfold displayedErrea. by rewrite Hc, Hget.
  - unfold legendData. by rewrite displayedFcastLines_isolated, Hget.
  - unfold ErrorStatsDisplay, ErrorStatsDisplay_stats. by rewrite Hc, Hget.
Qed.

(** X11. When the payload has lead days and their keys are lead-day keys,
    a click on [Actual] brings the cumulative view back from every state the
    chart reaches. *)
Theorem Actual_click_resets (evs : list ChartEvent) :
  Object_keys (lead_days analysis) <> [] ->
  Forall (fun k => isLeadDayKey k = true) (Object_keys (lead_days analysis)) ->
  activeFcastDay (chartRun analysis (evs ++ [LegendClicked "Actual"])) = DayNull.
Proof.
  intros Hne Hwf. unfold chartRun. rewrite foldl_snoc. cbn [chartStep].
  rewrite activeDay_after_click. cbn zeta. fold (chartRun analysis evs).
  rewrite Forall_forall in Hwf.
  destruct (chartRun_settled analysis evs) as [Hs|[[_ Hs]|(k & Hs & Hk)]];
    [|done|]; rewrite Hs.
  - rewrite cumulative_click_Actual; [done..|].
    intros Hin. by specialize (Hwf _ Hin).
  - by rewrite isolated_click_Actual by by apply isLeadDayKey_truthy, Hwf.
Qed.

(** X12. The entry [Error] is no toggle: with a lead day isolated, in a
    payload whose keys are lead-day keys, a click on [Error] leaves the day
    isolated. *)
Theorem Error_click_keeps_isolated_day (evs : list ChartEvent) (k : string) :
  Forall (fun k' => isLeadDayKey k' = true) (Object_keys (lead_days analysis)) ->
  activeFcastDay (chartRun analysis evs) = DayKey k ->
  activeFcastDay (chartRun analysis (evs ++ [LegendClicked "Error"])) = DayKey k.
Proof.
  intros Hwf Hst. unfold chartRun. rewrite foldl_snoc. cbn [chartStep].
  rewrite activeDay_after_click. cbn zeta. fold (chartRun analysis evs).
  rewrite Hst. rewrite Forall_forall in Hwf.
  destruct (chartRun_settled analysis evs) as [Hs|[[Hs _]|(k' & Hs & Hk)]];
    try congruence.
  rewrite Hst in Hs. injection Hs as <-.
  pose proof (Hwf _ Hk) as Hdig.
  unfold newActiveDayOf, activeFcasts.
  rewrite (isLeadDayKey_truthy k Hdig). cbn [negb].
  change (first (DayKey <$> JsString.split "Error" "-Day")) with (DayKey "Error").
  unfold Array_includes.
  rewrite (bool_decide_eq_false_2 ("Error" = "Actual")) by done.
  rewrite (bool_decide_eq_false_2 (DayKey "Error" ∈ [DayKey k])).
  2:{ rewrite list_elem_of_singleton. intros [= <-]. discriminate Hdig. }
  rewrite (bool_decide_eq_false_2 (DayKey "Error" ∈ DayKey <$> _)).
  2:{ rewrite DayKey_elem_of. intros Hin. by specialize (Hwf _ Hin). }
  done.
Qed.

(** X13. The hover panel holds the points of the latest activation, and
    any legend click, also one that changes nothing else, empties it, so
    that the panel then renders nothing. *)
Theorem hover_panel_after_event (evs : list ChartEvent) (ev : ChartEvent) :
  activeData (chartRun analysis (evs ++ [ev])) =
    match ev with
    | Activated points => points
    | LegendClicked _ => []
    end /\
  match ev with
  | Activated _ => True
  | LegendClicked _ =>
      ActiveDataDisplay (activeData (chartRun analysis (evs ++ [ev]))) = None
  end.
Proof.
  unfold chartRun. rewrite foldl_snoc. by destruct ev.
Qed.

End Rendering.

(** ** Labels *)

Lemma digit_chars (c : ascii) :
  JsString.isDigit c = true ->
  JsString.isWord c = true /\ TitleCase.isDelim c = false /\
  JsString.upperChar c = c /\ JsString.lowerChar c = c /\
  (JsString.code c =? 95)%N = false /\ c <> "a"%char.
Proof.
  destruct c as [[] [] [] [] [] [] [] []]; vm_compute; intros H;
    try discriminate H; repeat split; discriminate.
Qed.

Lemma lower_of_cased (c : ascii) :
  JsString.lowerChar (JsString.upperChar c) = JsString.lowerChar c /\
  JsString.lowerChar (JsString.lowerChar c) = JsString.lowerChar c.
Proof. by destruct c as [[] [] [] [] [] [] [] []]. Qed.

Lemma mapChars_append (f : ascii -> ascii) (s1 s2 : string) :
  JsString.mapChars f (s1 +:+ s2) = JsString.mapChars f s1 +:+ JsString.mapChars f s2.
Proof.
  induction s1 as [|c s1 IH]; [done|].
  change (String (f c) (JsString.mapChars f (s1 +:+ s2)) =
          String (f c) (JsString.mapChars f s1 +:+ JsString.mapChars f s2)).
  by rewrite IH.
Qed.

Lemma toLowerCase_idemp (s : string) :
  JsString.toLowerCase (JsString.toLowerCase s) = JsString.toLowerCase s.
Proof.
  unfold JsString.toLowerCase. induction s as [|c s IH]; [done|].
  cbn. by rewrite IH, (proj2 (lower_of_cased c)).
Qed.

Lemma digits_unchanged (f : ascii -> ascii) (d : string) :
  (forall c, JsString.isDigit c = true -> f c = c) ->
  JsString.allChars JsString.isDigit d = true ->
  JsString.mapChars f d = d.
Proof.
  intros Hf. induction d as [|c d IH]; [done|].
  cbn. intros [Hc Hd]%andb_prop. by rewrite Hf, IH.
Qed.

Lemma toLowerCase_lowerIfCaps (m : string) :
  JsString.toLowerCase (TitleCase.lowerIfCaps m) = JsString.toLowerCase m.
Proof.
  unfold TitleCase.lowerIfCaps. destruct (bool_decide _); [|done].
  apply toLowerCase_idemp.
Qed.

Lemma toLowerCase_flush (pending : option (string * string)) :
  JsString.toLowerCase (TitleCase.flush pending) =
  JsString.toLowerCase
    (match pending with Some (delim, word) => delim +:+ word | None => "" end).
Proof.
  destruct pending as [[delim word]|]; [|done]. cbn [TitleCase.flush].
  destruct (2 <=? String.length word)%nat; [|done].
  apply toLowerCase_lowerIfCaps.
Qed.

Lemma toLowerCase_lowerCaps (s : string) (pending : option (string * string)) :
  JsString.toLowerCase (TitleCase.lowerCaps s pending) =
  JsString.toLowerCase
    (match pending with Some (delim, word) => delim +:+ word | None => "" end
     +:+ s).
Proof.
  unfold JsString.toLowerCase.
  revert pending. induction s as [|c s IH]; intros pending.
  - cbn [TitleCase.lowerCaps]. rewrite append_empty_r. apply toLowerCase_flush.
  - cbn [TitleCase.lowerCaps]. destruct (JsString.isWord c).
    + destruct pending as [[delim word]|].
      * rewrite IH. by rewrite !append_assoc.
      * cbn [JsString.mapChars]. by rewrite IH.
    + rewrite mapChars_append. fold (JsString.toLowerCase (TitleCase.flush pending)).
      rewrite toLowerCase_flush. unfold JsString.toLowerCase.
      rewrite (mapChars_append _ _ (String c s)). f_equal.
      destruct (TitleCase.isDelim c).
      * rewrite IH. by rewrite append_empty_r.
      * cbn [JsString.mapChars]. by rewrite IH.
Qed.

Lemma toLowerCase_capitalize (s : string) (boundary : bool) :
  JsString.toLowerCase (TitleCase.capitalize s boundary) = JsString.toLowerCase s.
Proof.
  unfold JsString.toLowerCase.
  revert boundary. induction s as [|c s IH]; intros boundary; [done|].
  cbn. rewrite IH. f_equal.
  destruct (boundary && JsString.isWord c); [|done].
  apply lower_of_cased.
Qed.

(** X14. Title case changes the case of letters only, after the first
    underscore has become a space: put in lower case, the title of a label is
    that label in lower case, and so it has the length of the label. *)
Theorem title_case_changes_letter_case_only (str : string) :
  JsString.toLowerCase (TitleCase.toTitleCase str) =
    JsString.toLowerCase (JsString.replaceFirstUnderscore str) /\
  String.length (TitleCase.toTitleCase str) = String.length str.
Proof.
  assert (H : JsString.toLowerCase (TitleCase.toTitleCase str) =
              JsString.toLowerCase (JsString.replaceFirstUnderscore str)).
  { unfold TitleCase.toTitleCase.
    by rewrite toLowerCase_capitalize, toLowerCase_lowerCaps. }
  split; [done|].
  assert (Hlen : forall f s, String.length (JsString.mapChars f s) = String.length s).
  { intros f s. induction s as [|c s IH]; [done|]. cbn. by rewrite IH. }
  assert (Hrep : forall s, String.length (JsString.replaceFirstUnderscore s)
                           = String.length s).
  { intros s. induction s as [|c s IH]; [done|]. cbn.
    destruct (JsString.code c =? 95)%N; [done|]. cbn. by rewrite IH. }
  apply (f_equal String.length) in H. unfold JsString.toLowerCase in H.
  by rewrite !Hlen, Hrep in H.
Qed.

Lemma allChars_append (p : ascii -> bool) (s1 s2 : string) :
  JsString.allChars p (s1 +:+ s2) = JsString.allChars p s1 && JsString.allChars p s2.
Proof.
  induction s1 as [|c s1 IH]; [done|].
  change (p c && JsString.allChars p (s1 +:+ s2) =
          p c && JsString.allChars p s1 && JsString.allChars p s2).
  by rewrite IH, andb_assoc.
Qed.

Lemma flush_digits (w : string) :
  JsString.allChars JsString.isDigit w = true ->
  TitleCase.flush (Some ("", w)) = w.
Proof.
  intros Hw. cbn [TitleCase.flush]. change ("" +:+ w) with w.
  destruct (2 <=? String.length w)%nat; [|done].
  unfold TitleCase.lowerIfCaps. destruct (bool_decide _); [|done].
  apply digits_unchanged; [|done]. intros c Hc. by apply digit_chars.
Qed.

Lemma replaceFirstUnderscore_day_label (d : string) :
  JsString.allChars JsString.isDigit d = true ->
  JsString.replaceFirstUnderscore (d +:+ "-Day") = d +:+ "-Day".
Proof.
  induction d as [|c d IH]; [done|]. cbn [JsString.allChars].
  intros [Hc Hd]%andb_prop.
  change (String c d +:+ "-Day") with (String c (d +:+ "-Day")).
  cbn [JsString.replaceFirstUnderscore].
  destruct (digit_chars c Hc) as (_ & _ & _ & _ & -> & _). by rewrite IH.
Qed.

Lemma lowerCaps_day_label (d w : string) :
  JsString.allChars JsString.isDigit d = true ->
  JsString.allChars JsString.isDigit w = true ->
  TitleCase.lowerCaps (d +:+ "-Day") (Some ("", w)) = (w +:+ d) +:+ "-Day".
Proof.
  revert w. induction d as [|c d IH]; intros w Hd Hw.
  - change ("" +:+ "-Day") with "-Day". rewrite append_empty_r.
    change (TitleCase.lowerCaps "-Day" (Some ("", w))) with
      (TitleCase.flush (Some ("", w)) +:+ "-Day").
    by rewrite flush_digits.
  - cbn [JsString.allChars] in Hd. apply andb_prop in Hd as [Hc Hd].
    change (String c d +:+ "-Day") with (String c (d +:+ "-Day")).
    cbn [TitleCase.lowerCaps].
    destruct (digit_chars c Hc) as (-> & _).
    rewrite IH; [|done|].
    + by rewrite (append_assoc w (String c "") d).
    + rewrite allChars_append, Hw. cbn. by rewrite Hc.
Qed.

Lemma capitalize_day_label (d : string) (boundary : bool) :
  JsString.allChars JsString.isDigit d = true ->
  TitleCase.capitalize (d +:+ "-Day") boundary = d +:+ "-Day".
Proof.
  revert boundary. induction d as [|c d IH]; intros boundary Hd.
  - by destruct boundary.
  - cbn [JsString.allChars] in Hd. apply andb_prop in Hd as [Hc Hd].
    change (String c d +:+ "-Day") with (String c (d +:+ "-Day")).
    cbn [TitleCase.capitalize].
    destruct (digit_chars c Hc) as (_ & -> & -> & _).
    rewrite IH by done. by destruct (boundary && JsString.isWord c).
Qed.

Lemma toTitleCase_day_label (d : string) :
  JsString.allChars JsString.isDigit d = true ->
  TitleCase.toTitleCase (d +:+ "-Day") = d +:+ "-Day".
Proof.
  intros Hd. unfold TitleCase.toTitleCase.
  rewrite replaceFirstUnderscore_day_label, lowerCaps_day_label by done.
  change ("" +:+ d) with d. by apply capitalize_day_label.
Qed.

Lemma day_label_not_accuracy (d : string) :
  JsString.allChars JsString.isDigit d = true ->
  JsString.toLowerCase (d +:+ "-Day") <> "accuracy".
Proof.
  destruct d as [|c d]; [done|]. cbn [JsString.allChars].
  intros [Hc _]%andb_prop.
  change (String c d +:+ "-Day") with (String c (d +:+ "-Day")).
  unfold JsString.toLowerCase. cbn [JsString.mapChars].
  destruct (digit_chars c Hc) as (_ & _ & _ & -> & _ & Ha). congruence.
Qed.

(** ** The hover panel *)

(** X15. A hovered point of the line of a lead day, with a value, is
    shown under the name of the line as it is, in degrees, and without a
    class of its own: the class attribute ends in [undefined]. *)
Theorem lead_day_point_is_shown_by_name (d : string) (v : float)
    (a : option float) :
  isLeadDayKey d = true ->
  ActiveDataDisplay [{| childName := d +:+ "-Day"; _y := Some v; amount := a |}] =
    Some [{| label := d +:+ "-Day"; value := Some v;
             type := None; className := None |}] /\
  LabeledValue {| label := d +:+ "-Day"; value := Some v;
                  type := None; className := None |} =
    {| spanClass := "mr-3 d-inline-block undefined";
       labelText := d +:+ "-Day";
       formattedValue := formatForDisplay v "°C" |}.
Proof.
  intros Hd%isLeadDayKey_digits. split.
  - unfold ActiveDataDisplay, formattedDataOf. cbn [foldl forEachDatum _y childName].
    by rewrite includes_Error_day_label.
  - unfold LabeledValue. cbn [label value type className typeOrLabel toNumber default].
    rewrite toTitleCase_day_label by done.
    by rewrite bool_decide_eq_false_2 by by apply day_label_not_accuracy.
Qed.

(** X16. A hovered point of any error area that the chart has built, with
    a value, is shown as the entry [Forecast Error], which carries the amount
    of the point, in degrees and in the class [text-danger]. *)
Theorem error_area_point_is_shown_as_forecast_error
    (dateValue : string -> option Z) (analysis : VariableAnalysis)
    (activeDay : ActiveDay) (areas : list Errea.area) (area : Errea.area)
    (v : float) (a : option float) :
  displayedErrea dateValue analysis activeDay = Ok areas ->
  area ∈ areas ->
  ActiveDataDisplay [{| childName := Errea.name area; _y := Some v; amount := a |}] =
    Some [{| label := "Forecast Error"; value := a;
             type := None; className := Some "text-danger" |}] /\
  LabeledValue {| label := "Forecast Error"; value := a;
                  type := None; className := Some "text-danger" |} =
    {| spanClass := "mr-3 d-inline-block text-danger";
       labelText := "Forecast Error";
       formattedValue := formatForDisplay (toNumber a) "°C" |}.
Proof.
  intros Hareas Hin. split; [|done].
  assert (Hname : JsString.includes (Errea.name area) "Error" = true).
  { unfold displayedErrea in Hareas.
    destruct (truthy activeDay); [|injection Hareas as <-; by apply elem_of_nil in Hin].
    destruct activeDay as [| | |k]; try done.
    destruct (Object_get (lead_days analysis) k) as [ld|]; [|done].
    destruct (erreaRegions dateValue analysis ld) as [erreas|]; [|done].
    cbn [bindR] in Hareas. injection Hareas as <-.
    apply elem_of_lookup_imap_1 in Hin as (i & errea & -> & _). done. }
  unfold ActiveDataDisplay, formattedDataOf. cbn [foldl forEachDatum _y childName].
  by rewrite Hname.
Qed.

(** X17. Hovered points that all have the value [null] give a panel with
    no entry, which is not the same as no panel: only an empty list of points
    renders nothing. *)
Theorem points_without_value_give_an_empty_panel (data : list HoverPoint) :
  data <> [] ->
  Forall (fun datum => _y datum = None) data ->
  ActiveDataDisplay data = Some [] /\ ActiveDataDisplay [] = None.
Proof.
  intros Hne Hall. split; [|done].
  assert (Hnone : omap valueElementOf data = [] /\ omap errorElementOf data = []).
  { clear Hne. induction data as [|p l IH]; [done|].
    apply Forall_cons in Hall as [Hp Hl]. destruct (IH Hl) as [IHv IHe].
    cbn [omap list_omap]. unfold valueElementOf at 1, errorElementOf at 1.
    by rewrite Hp. }
  destruct Hnone as [Hv He].
  destruct data as [|datum data]; [done|]. unfold ActiveDataDisplay.
  by rewrite formattedDataOf_spec, Hv, He.
Qed.

(** X18. When no hovered point carries an amount, as when the points of
    the error areas lack it, and a point of an error series has a value, the
    last line of the panel reads [Forecast Error: NaN°C]. *)
Theorem error_point_without_amount_shows_NaN (data : list HoverPoint)
    (e : HoverPoint) :
  e ∈ data ->
  _y e <> None ->
  JsString.includes (childName e) "Error" = true ->
  Forall (fun datum => amount datum = None) data ->
  last (displaySequence data) = Some "Forecast Error: NaN°C".
Proof.
  intros Hin Hy He Hall.
  assert (Hsome : is_Some (errorElementOf e)).
  { unfold errorElementOf. destruct (_y e); [|done]. by rewrite He. }
  destruct Hsome as [p Hp].
  assert (Hin' : p ∈ omap errorElementOf data)
    by (apply list_elem_of_omap; eauto).
  destruct (last (omap errorElementOf data)) as [p'|] eqn:Hlast.
  2:{ apply last_None in Hlast. rewrite Hlast in Hin'.
      by apply elem_of_nil in Hin'. }
  pose proof (last_Some_elem_of _ _ Hlast) as Hp'.
  apply list_elem_of_omap in Hp' as (e' & Hine' & Hp').
  apply errorElementOf_Some in Hp' as (_ & _ & ->).
  rewrite Forall_forall in Hall. rewrite (Hall _ Hine') in Hlast.
  unfold displaySequence, ActiveDataDisplay.
  destruct data as [|datum data]; [by apply elem_of_nil in Hin|].
  rewrite formattedDataOf_spec, Hlast.
  unfold option_list. cbn [option_rect].
  rewrite fmap_app. cbn [fmap list_fmap]. rewrite last_snoc.
  by vm_compute.
Qed.

(** ** The day pickers *)

(** X19. After a change of the day in a picker the warning shows exactly
    when the day is missing or disabled, whatever was shown before, and the
    form receives the day exactly when it is given and not disabled. *)
Theorem day_change_warns_on_unusable_days {Day : Type} (day : option Day)
    (disabled warned : bool) :
  let usable := bool_decide (is_Some day) && negb disabled in
  onDayChange day disabled warned = (negb usable, if usable then day else None) /\
  advisory (onDayChange day disabled warned).1 =
    (if usable then " " else " Check date.").
Proof. by destruct day, disabled, warned. Qed.

(** ** The page *)

Lemma pageStep_status (st : PageState) (evs : list PageEvent) :
  statusMessage (foldl pageStep st evs) = statusMessage st \/
  statusMessage (foldl pageStep st evs) = "Retrieving..." \/
  RequestFailed (statusMessage (foldl pageStep st evs)) ∈ evs.
Proof.
  induction evs as [|ev evs IH] using rev_ind; [by left|].
  rewrite foldl_snoc.
  destruct ev as [|json|message|key]; cbn [pageStep statusMessage].
  - by right; left.
  - destruct IH as [?|[?|?]]; [by left|by right; left|].
    right. right. apply elem_of_app. by left.
  - right. right. apply elem_of_app. right. apply list_elem_of_here.
  - destruct IH as [?|[?|?]]; [by left|by right; left|].
    right. right. apply elem_of_app. by left.
Qed.

(** X20. Once a date range has been submitted, the status message is
    [Retrieving...] or the message of a request that failed after the
    submission; and while only tabs are selected the test data stays charted
    and no status is shown. So the message [Select date range.] of the page
    as mounted is displayed only if a response arrives that no submission
    asked for. *)
Theorem status_after_a_submission (testData : AnalysisPayload)
    (before after : list PageEvent) (tabs : list string) :
  (statusMessage (pageRun (Some testData) (before ++ Submitted :: after))
     = "Retrieving..." \/
   RequestFailed
     (statusMessage (pageRun (Some testData) (before ++ Submitted :: after)))
     ∈ after) /\
  statusShown (pageRun (Some testData) (TabSelected <$> tabs)) = None.
Proof.
  split.
  - unfold pageRun. rewrite foldl_app. cbn [foldl].
    destruct (pageStep_status
                (pageStep (foldl pageStep (pageMounted (Some testData)) before)
                          Submitted) after) as [H|[H|H]]; [|by left|by right].
    left. by rewrite H.
  - unfold pageRun, statusShown.
    assert (H : pageAnalysis (foldl pageStep (pageMounted (Some testData))
                                (TabSelected <$> tabs)) = Some testData).
    { induction tabs as [|key tabs IH] using rev_ind; [done|].
      by rewrite fmap_app, foldl_app. }
    by rewrite H.
Qed.

(** ** The further properties on the sample data *)

(** The hourly sample day gives one region of three points. *)
Lemma hourly_errors_give_one_region_sample :
  erreaRegions IsoDate.valueOf Sample.analysis MoreSamples.hourlyDay =
    Ok [erreaDatumOf IsoDate.valueOf Sample.analysis MoreSamples.hourlyDay
          <$> errors MoreSamples.hourlyDay] /\
  mapR (fun erreas => length <$> erreas)
       (erreaRegions IsoDate.valueOf Sample.analysis MoreSamples.hourlyDay) =
    Ok [3].
Proof.
  apply (hourly_errors_give_one_region_of_all_points
           IsoDate.valueOf Sample.analysis MoreSamples.hourlyDay).
  - discriminate.
  - by vm_compute.
Defined.

(** The legend of the sample payload with the day 1 isolated: the entry
    of the day 2 is dimmed, and [Error] is not. *)
Lemma legend_with_a_day_isolated_sample :
  mapR (map (fun entry => (entryName entry, symbolOpacity entry)))
       (legendData MoreSamples.theme IsoDate.valueOf Sample.analysis (DayKey "1"))
  = Ok [("1-Day", 1%float); ("2-Day", 0.1%float); ("Actual", 1%float);
        ("Error", 0.4%float)].
Proof.
  rewrite (legend_with_a_day_isolated MoreSamples.theme IsoDate.valueOf
             Sample.analysis "1" Sample.day1); reflexivity.
Defined.

(** The legend of the sample payload with no day isolated. *)
Lemma legend_with_no_day_isolated_sample :
  mapR (map (fun entry => (entryName entry, symbolOpacity entry)))
       (legendData MoreSamples.theme IsoDate.valueOf Sample.analysis DayNull)
  = Ok [("1-Day", 1%float); ("2-Day", 0.8%float); ("Actual", 1%float);
        ("Error", 0.2%float)].
Proof.
  destruct (legend_with_no_day_isolated MoreSamples.theme IsoDate.valueOf
              Sample.analysis DayNull) as [_ ->].
  - reflexivity.
  - by_decision.
  - by vm_compute.
Defined.

(** The panel of the hourly sample day: the property [n] of the type
    [bias] is not shown. *)
Lemma stats_panel_sample :
  ErrorStatsDisplay Sample.analysis DayNull =
    Ok ("Forecast Accuracy: Cumulative",
        [{| label := "bias"; value := Some 0.25%float;
            type := None; className := None |};
         {| label := "accuracy"; value := Some 0.69%float;
            type := None; className := None |}]) /\
  ErrorStatsDisplay
    {| metadata := metadata Sample.analysis; obs := obs Sample.analysis;
       lead_days := [("3", MoreSamples.hourlyDay)];
       cumulative_stats := cumulative_stats Sample.analysis |} (DayKey "3") =
    Ok ("Forecast Accuracy: 3-Day",
        [{| label := "bias"; value := Some 0.1%float;
            type := None; className := None |}]).
Proof.
  split.
  - apply (stats_panel_shows_properties_named_after_their_type
             Sample.analysis "1" Sample.day1); try reflexivity;
      try by_decision; repeat constructor; by_decision.
  - apply (stats_panel_shows_properties_named_after_their_type
             _ "3" MoreSamples.hourlyDay); try reflexivity;
      try by_decision; repeat constructor; by_decision.
Defined.

(** The sample payload has no lead day 7. *)
Lemma unknown_active_day_throws_sample :
  displayedFcastLines Sample.analysis (DayKey "7") = TypeError /\
  displayedErrea IsoDate.valueOf Sample.analysis (DayKey "7") = TypeError /\
  legendData MoreSamples.theme IsoDate.valueOf Sample.analysis (DayKey "7")
    = TypeError /\
  ErrorStatsDisplay Sample.analysis (DayKey "7") = TypeError.
Proof.
  apply (unknown_active_day_throws MoreSamples.theme IsoDate.valueOf
           Sample.analysis "7").
  - discriminate.
  - by_decision.
Defined.

(** [Actual] after the day 2 has been isolated. *)
Lemma Actual_click_resets_sample :
  activeFcastDay
    (chartRun Sample.analysis [LegendClicked "2-Day"; LegendClicked "Actual"])
  = DayNull.
Proof.
  apply (Actual_click_resets Sample.analysis [LegendClicked "2-Day"]).
  - discriminate.
  - repeat constructor.
Defined.

(** [Error] after the day 1 has been isolated. *)
Lemma Error_click_keeps_isolated_day_sample :
  activeFcastDay
    (chartRun Sample.analysis [LegendClicked "1-Day"; LegendClicked "Error"])
  = DayKey "1".
Proof.
  apply (Error_click_keeps_isolated_day Sample.analysis [LegendClicked "1-Day"] "1").
  - repeat constructor.
  - reflexivity.
Defined.

(** The hovered point of the line [1-Day]. *)
Lemma lead_day_point_is_shown_by_name_sample :
  displaySequence [Sample.linePoint] = ["1-Day: 18.4°C"].
Proof.
  destruct (lead_day_point_is_shown_by_name "1" 18.4%float None) as [Hd Hl];
    [reflexivity|].
  unfold displaySequence, Sample.linePoint.
  change ("1" +:+ "-Day") with "1-Day" in Hd, Hl.
  rewrite Hd. cbn [fmap list_fmap]. rewrite Hl. by vm_compute.
Defined.

(** A hovered point of the first error area of the first sample day. *)
Lemma error_area_point_sample :
  Errea.name MoreSamples.area1 = "Error-Area-0" /\
  displaySequence
    [{| childName := Errea.name MoreSamples.area1; _y := Some 16.1%float;
        amount := Some (-2.3)%float |}] = ["Forecast Error: -2.3°C"].
Proof.
  split; [by vm_compute|].
  destruct (error_area_point_is_shown_as_forecast_error
              IsoDate.valueOf Sample.analysis (DayKey "1")
              MoreSamples.areas1 MoreSamples.area1 16.1%float (Some (-2.3)%float))
    as [Hd Hl].
  - by vm_compute.
  - vm_compute. apply list_elem_of_here.
  - unfold displaySequence. rewrite Hd. cbn [fmap list_fmap]. rewrite Hl.
    by vm_compute.
Defined.

(** An error point without a value, alone. *)
Lemma points_without_value_sample :
  ActiveDataDisplay [Sample.errorPointNoValue] = Some [] /\
  ActiveDataDisplay [] = None.
Proof.
  apply (points_without_value_give_an_empty_panel [Sample.errorPointNoValue]).
  - discriminate.
  - by repeat constructor.
Defined.

(** A point of a line and a point of an error area without an amount. *)
Lemma error_point_without_amount_sample :
  displaySequence [Sample.linePoint; MoreSamples.errorPointNoAmount] =
    ["1-Day: 18.4°C"; "Forecast Error: NaN°C"] /\
  last (displaySequence [Sample.linePoint; MoreSamples.errorPointNoAmount]) =
    Some "Forecast Error: NaN°C".
Proof.
  split; [by vm_compute|].
  apply (error_point_without_amount_shows_NaN
           [Sample.linePoint; MoreSamples.errorPointNoAmount]
           MoreSamples.errorPointNoAmount).
  - apply list_elem_of_further, list_elem_of_here.
  - discriminate.
  - reflexivity.
  - by repeat constructor.
Defined.

(** The regions of the first sample day are two, and the second starts two
    hours after the end of the first. *)
Example sample_regions_are_separated :
  mapR separated (erreaRegions IsoDate.valueOf Sample.analysis Sample.day1) = Ok true /\
  mapR length (erreaRegions IsoDate.valueOf Sample.analysis Sample.day1) = Ok 2.
Proof. by vm_compute. Qed.

Lemma mapResult_TypeError {A B} (f : A -> Result B) (xs : list A) :
  mapResult f xs = TypeError <-> exists a, a ∈ xs /\ f a = TypeError.
Proof.
  induction xs as [|a xs IH]; cbn.
  - split; [done|]. by intros (a & Ha%elem_of_nil & _).
  - destruct (f a) as [b|] eqn:Hfa; cbn.
    + destruct (mapResult f xs) as [bs|]; cbn.
      * split; [done|]. intros (a' & [->|Ha']%elem_of_cons & Hf); [congruence|].
        assert (Hno : Ok bs = @TypeError (list B)) by (apply IH; by exists a').
        discriminate Hno.
      * split; [|done]. intros _.
        destruct (proj1 IH eq_refl) as (a' & Ha' & Hf).
        exists a'. split; [by apply list_elem_of_further|done].
    + split; [|done]. intros _. exists a. split; [apply list_elem_of_here|done].
Qed.

(** X21. The tabs of the page are built without an error exactly when the
    analysis has all four weather types that the page makes a tab for
    (temperature, dewpoint, wind_speed, cloud_cover): if one is missing, the
    page throws on its metadata, also when that weather is not selected. *)
Theorem tabs_need_every_working_weather (analysis : AnalysisPayload) :
  pageTabs analysis = TypeError <->
  exists weatherType,
    weatherType ∈ ["temperature"; "dewpoint"; "wind_speed"; "cloud_cover"] /\
    Object_get analysis weatherType = None.
Proof.
  unfold pageTabs. rewrite mapResult_TypeError. unfold workingWeathers.
  split; intros (w & Hw & H); exists w; (split; [done|]);
    by destruct (Object_get analysis w).
Qed.

(** The sample payload has the temperature alone. *)
Example sample_payload_has_no_tabs :
  pageTabs MoreSamples.payload = TypeError.
Proof. reflexivity. Qed.

(** * The legend and the statistics on the states the chart reaches *)

Lemma Object_get_elem_of {V} (o : JsObject V) (k : string) (v : V) :
  Object_get o k = Some v -> (k, v) ∈ o.
Proof.
  induction o as [|[k' v'] o IH]; cbn; [done|].
  destruct (decide (k' = k)) as [->|Hne].
  - intros [= ->]. apply list_elem_of_here.
  - intros H. apply list_elem_of_further. by apply IH.
Qed.

Lemma day_label_not_Error (d : string) :
  JsString.allChars JsString.isDigit d = true -> d +:+ "-Day" <> "Error".
Proof.
  intros H E. apply includes_Error_day_label in H. rewrite E in H.
  discriminate H.
Qed.

(** C7. A legend label of the form [d-Day], where [d] is a lead-day key
    that the payload does not have, is none of the legend's entries: it is
    not [Actual], not [Error], and not [k-Day] for a lead day [k] of the
    payload. A click with such a label, in any state that the chart reaches
    from the one it is mounted with, leaves the active day as it is; the
    click is a total function of the state and raises no error. *)
Theorem missing_day_label_click_is_noop (analysis : VariableAnalysis)
    (d : string) (evs : list ChartEvent) :
  isLeadDayKey d = true ->
  d ∉ Object_keys (lead_days analysis) ->
  let labelName := d +:+ "-Day" in
  (labelName <> "Actual" /\ labelName <> "Error" /\
   labelName ∉ (fun k => k +:+ "-Day") <$> Object_keys (lead_days analysis)) /\
  activeFcastDay (chartRun analysis (evs ++ [LegendClicked labelName])) =
    activeFcastDay (chartRun analysis evs).
Proof.
  intros Hd Hnew labelName.
  pose proof (isLeadDayKey_digits d Hd) as Hdigits.
  split.
  - split; [by apply day_label_not_Actual|].
    split; [by apply day_label_not_Error|].
    intros (k & E & Hk)%list_elem_of_fmap.
    apply append_inj_r in E. by subst k.
  - unfold chartRun. rewrite foldl_snoc. fold (chartRun analysis evs).
    cbn [chartStep].
    pose proof (chartRun_settled analysis evs) as Hst.
    apply unknown_label_click_keeps_active_day; cbn zeta; unfold labelName;
      rewrite split_day_label by done; cbn [fmap list_fmap first].
    + by rewrite DayKey_elem_of.
    + destruct (truthy (activeFcastDay (chartRun analysis evs))) eqn:Hc.
      * split; [by apply day_label_not_Actual|].
        destruct Hst as [Hst|[[Hst _]|(k & Hst & Hk)]]; rewrite Hst in *;
          [done..|].
        intros [= ->]. by apply Hnew.
      * by apply includes_Error_day_label.
Qed.

(** C8 (as amended). The statistics shown are the cumulative ones when the
    active day is falsy: [null], and also [undefined] and the empty string.
    For a non-empty key of the payload they are the statistics that the
    payload has for that very key. They are the cumulative ones in no other
    case, except when the statistics of the active lead day equal them. *)
Theorem stats_follow_truthiness_of_active_day (analysis : VariableAnalysis)
    (d : string) (ld : LeadDayAnalysis) :
  NoDup (Object_keys (lead_days analysis)) ->
  (d, ld) ∈ lead_days analysis ->
  d <> "" ->
  ErrorStatsDisplay_stats analysis DayNull = Ok (cumulative_stats analysis) /\
  ErrorStatsDisplay_stats analysis DayUndefined = Ok (cumulative_stats analysis) /\
  ErrorStatsDisplay_stats analysis (DayKey "") = Ok (cumulative_stats analysis) /\
  ErrorStatsDisplay_stats analysis (DayKey d) = Ok (stats ld) /\
  (forall activeDay : ActiveDay,
     ErrorStatsDisplay_stats analysis activeDay = Ok (cumulative_stats analysis) <->
     truthy activeDay = false \/
     exists k ld', activeDay = DayKey k /\ (k, ld') ∈ lead_days analysis /\
                   stats ld' = cumulative_stats analysis).
Proof.
  intros Hnd Hin Hd.
  assert (Hkey : forall k ld', k <> "" -> (k, ld') ∈ lead_days analysis ->
            ErrorStatsDisplay_stats analysis (DayKey k) = Ok (stats ld')).
  { intros k ld' Hk Hk'. unfold ErrorStatsDisplay_stats, truthy.
    rewrite (bool_decide_eq_false_2 _ Hk). cbn [negb].
    by rewrite (Object_get_entry _ _ _ Hnd Hk'). }
  split; [done|]. split; [done|]. split; [done|].
  split; [by apply Hkey|].
  intros activeDay. split.
  - intros H. destruct (truthy activeDay) eqn:Hc; [|by left]. right.
    unfold ErrorStatsDisplay_stats in H. rewrite Hc in H. cbn [negb] in H.
    destruct activeDay as [| | |k]; try discriminate H.
    destruct (Object_get (lead_days analysis) k) as [ld'|] eqn:Hget;
      [|discriminate H].
    exists k, ld'. split; [done|]. split; [by apply Object_get_elem_of|].
    by injection H.
  - intros [Hc|(k & ld' & -> & Hk & Hsame)].
    + unfold ErrorStatsDisplay_stats. by rewrite Hc.
    + destruct (decide (k = "")) as [->|Hne]; [done|].
      rewrite (Hkey k ld' Hne Hk). by rewrite Hsame.
Qed.

(** ** Examples *)

(** With the day 1 isolated by a click on its entry, a click labelled
    [3-Day], a day the sample payload does not have, changes nothing. *)
Lemma missing_day_label_click_is_noop_sample :
  ("3-Day" <> "Actual" /\ "3-Day" <> "Error" /\
   "3-Day" ∉ (fun k => k +:+ "-Day") <$> Object_keys (lead_days Sample.analysis)) /\
  activeFcastDay
    (chartRun Sample.analysis ([LegendClicked "1-Day"] ++ [LegendClicked "3-Day"])) =
  activeFcastDay (chartRun Sample.analysis [LegendClicked "1-Day"]).
Proof.
  apply (missing_day_label_click_is_noop Sample.analysis "3" [LegendClicked "1-Day"]).
  - reflexivity.
  - by_decision.
Defined.

(** The statistics of the sample payload: the cumulative ones for the falsy
    active days, and those of the day 2, its second lead day, when the day 2
    is active. *)
Lemma stats_follow_truthiness_of_active_day_sample :
  ErrorStatsDisplay_stats Sample.analysis DayNull =
    Ok (cumulative_stats Sample.analysis) /\
  ErrorStatsDisplay_stats Sample.analysis DayUndefined =
    Ok (cumulative_stats Sample.analysis) /\
  ErrorStatsDisplay_stats Sample.analysis (DayKey "") =
    Ok (cumulative_stats Sample.analysis) /\
  ErrorStatsDisplay_stats Sample.analysis (DayKey "2") = Ok (stats Sample.day2) /\
  (forall activeDay : ActiveDay,
     ErrorStatsDisplay_stats Sample.analysis activeDay =
       Ok (cumulative_stats Sample.analysis) <->
     truthy activeDay = false \/
     exists k ld', activeDay = DayKey k /\ (k, ld') ∈ lead_days Sample.analysis /\
                   stats ld' = cumulative_stats Sample.analysis).
Proof.
  apply (stats_follow_truthiness_of_active_day Sample.analysis "2" Sample.day2).
  - by_decision.
  - apply list_elem_of_further, list_elem_of_here.
  - discriminate.
Defined.

(** C8, on the code. The test is [!activeDay], and [null] is not the only
    active day that passes it. On a payload with no lead day a click on
    [Error] in the mounted chart makes the active day [undefined], and the
    statistics shown are then the cumulative ones; so are they for the
    empty string. *)
Lemma undefined_active_day_shows_cumulative_stats :
  let activeDay :=
    activeFcastDay (chartRun MoreSamples.noLeadDays [LegendClicked "Error"]) in
  activeDay = DayUndefined /\
  activeDay <> DayNull /\
  ErrorStatsDisplay_stats MoreSamples.noLeadDays activeDay =
    Ok (cumulative_stats MoreSamples.noLeadDays) /\
  DayKey "" <> DayNull /\
  ErrorStatsDisplay_stats Sample.analysis (DayKey "") =
    Ok (cumulative_stats Sample.analysis).
Proof.
  cbn zeta. split; [reflexivity|]. split; [discriminate|].
  split; [reflexivity|]. split; [discriminate|reflexivity].
Qed.
